(** * gradio output components: the value-transformation pipeline

    A shallow embedding of [gradio/outputs.py]: the [postprocess] methods of
    the output components (Textbox, Label, Image, KeyValues, Audio, JSON,
    Dataframe) and [Image.rebuild], together with the properties the
    specification states about them.

    Python values are an inductive type, Python exceptions are the error
    side of a [result], and the methods that touch the file system
    (Image.postprocess, Image.rebuild, Audio.postprocess) thread an
    explicit [world]. *)

From Stdlib Require Import List String Ascii ZArith QArith Bool Lia.
From Stdlib Require Import Permutation Sorted DecimalString.
Import ListNotations.
Close Scope Q_scope.
Open Scope string_scope.
Open Scope list_scope.

Set Implicit Arguments.
Set Warnings "-register-all".

(** ** Python values *)

(** The values the components receive and produce.  A [str] is a Rocq
    [string] whose characters are code points below 256.  A finite [float]
    is held as the rational it denotes (NaN and the infinities, on which
    Python's order is not total, are not values of the model).  The foreign
    objects are kept by what the components read from them: an ndarray by
    its [tolist()] image, a PIL image by its pixel data, a module by its
    name, a pandas DataFrame by its column labels and its rows. *)
Inductive pyval : Type :=
| PNone
| PBool (b : bool)
| PInt (z : Z)
| PFloat (q : Q)
| PStr (s : string)
| PBytes (s : string)
| PList (l : list pyval)
| PTuple (l : list pyval)
| PDict (d : list (pyval * pyval))
| PNdarray (a : pyval)
| PImage (pixels : pyval)
| PModule (name : string)
| PDataFrame (columns : list pyval) (rows : list (list pyval)).

(** ** Exceptions and results *)

Inductive exn : Type :=
| ValueError (msg : string)
| TypeError (msg : string)
| IndexError (msg : string)
| KeyError (msg : string)
| AttributeError (msg : string)
| UnboundLocalError (var : string)
| FileNotFoundError (path : string)
| OSError (msg : string).

Inductive result (A : Type) : Type :=
| Ok (a : A)
| Raise (e : exn).

Arguments Ok {A} a.
Arguments Raise {A} e.

Definition bind {A B : Type} (r : result A) (k : A -> result B) : result B :=
  match r with
  | Ok a => k a
  | Raise e => Raise e
  end.

Declare Scope py_scope.
Delimit Scope py_scope with py.
Notation "x <- r ;; k" := (bind r (fun x => k))
  (at level 61, r at next level, right associativity) : py_scope.
Open Scope py_scope.

(** ** isinstance *)

Definition is_str (y : pyval) : bool :=
  match y with PStr _ => true | _ => false end.

(** [isinstance(y, numbers.Number)]: bool is a subclass of int. *)
Definition is_number (y : pyval) : bool :=
  match y with PBool _ | PInt _ | PFloat _ => true | _ => false end.

Definition is_dict (y : pyval) : bool :=
  match y with PDict _ => true | _ => false end.

Definition is_list (y : pyval) : bool :=
  match y with PList _ => true | _ => false end.

Definition is_tuple (y : pyval) : bool :=
  match y with PTuple _ => true | _ => false end.

Definition is_ndarray (y : pyval) : bool :=
  match y with PNdarray _ => true | _ => false end.

Definition is_pil_image (y : pyval) : bool :=
  match y with PImage _ => true | _ => false end.

Definition is_module (y : pyval) : bool :=
  match y with PModule _ => true | _ => false end.

Definition is_dataframe (y : pyval) : bool :=
  match y with PDataFrame _ _ => true | _ => false end.

(** ** Builtins *)

(** The decimal text of an int, as [str] prints it. *)
Definition str_of_Z (z : Z) : string := NilZero.string_of_int (Z.to_int z).

Definition str_of_nat (n : nat) : string := NilEmpty.string_of_uint (Nat.to_uint n).

(** [str(y)] on the values whose text is fixed by the language alone.  The
    text of a float (shortest round-trip repr), of a container and of a
    foreign object is not reproduced: the components take [str] as a
    parameter, and this instance serves the concrete runs. *)
Definition scalar_str (y : pyval) : string :=
  match y with
  | PNone => "None"
  | PBool true => "True"
  | PBool false => "False"
  | PInt z => str_of_Z z
  | PStr s => s
  | _ => "<object>"
  end.

(** The number a numeric value denotes. *)
Definition num_val (y : pyval) : option Q :=
  match y with
  | PBool true => Some (1 # 1)%Q
  | PBool false => Some (0 # 1)%Q
  | PInt z => Some (inject_Z z)
  | PFloat q => Some q
  | _ => None
  end.

Definition Qltb (x y : Q) : bool := negb (Qle_bool y x).

(** [a < b].  Numbers compare by value across bool, int and float, strs
    and bytes lexicographically; any other pair is a TypeError (the
    ordering of containers and of foreign objects is not modelled: Label
    scores are numbers). *)
Definition py_lt (a b : pyval) : result bool :=
  match num_val a, num_val b with
  | Some x, Some y => Ok (Qltb x y)
  | _, _ =>
      match a, b with
      | PStr s, PStr t => Ok (String.ltb s t)
      | PBytes s, PBytes t => Ok (String.ltb s t)
      | _, _ => Raise (TypeError "'<' not supported between instances")
      end
  end.

(** [y.items()]: a dict yields its (key, value) pairs in insertion order.
    No other modelled value is given an [items] attribute. *)
Definition py_items (y : pyval) : result (list (pyval * pyval)) :=
  match y with
  | PDict d => Ok d
  | _ => Raise (AttributeError "object has no attribute 'items'")
  end.

(** [xs[:k]] for an int [k]: a negative bound counts from the end. *)
Definition py_slice_to {A : Type} (k : Z) (xs : list A) : list A :=
  if (0 <=? k)%Z then firstn (Z.to_nat k) xs
  else firstn (List.length xs - Z.to_nat (- k)) xs.

(** [xs[0]] on a list. *)
Definition py_first {A : Type} (xs : list A) : result A :=
  match xs with
  | x :: _ => Ok x
  | [] => Raise (IndexError "list index out of range")
  end.

(** *** sorted *)

(** [sorted(xs, key=..., reverse=...)].  CPython's sort is stable and only
    asks [<] of the keys; with [reverse=True] it reverses the list, sorts it
    ascending and reverses the outcome, which keeps equal keys in their
    original order.  The ascending pass is modelled as a stable insertion
    sort: each element in turn is placed before the first element of the
    sorted prefix that it is smaller than.  A comparison that raises ends
    the sort. *)
Section Sorted.
Variable A : Type.
Variable lt : A -> A -> result bool.

Fixpoint insort (x : A) (l : list A) : result (list A) :=
  match l with
  | [] => Ok [x]
  | y :: l' =>
      b <- lt x y ;;
      if b then Ok (x :: y :: l')
      else r <- insort x l' ;; Ok (y :: r)
  end.

Definition sort_ascending (l : list A) : result (list A) :=
  fold_left (fun acc x => a <- acc ;; insort x a) l (Ok []).

Definition py_sorted (reverse : bool) (l : list A) : result (list A) :=
  if reverse then r <- sort_ascending (rev l) ;; Ok (rev r)
  else sort_ascending l.
End Sorted.

(** [operator.itemgetter(1)] on a (key, value) pair. *)
Definition itemgetter1 (pred : pyval * pyval) : pyval := snd pred.

Definition lt_by_key {A : Type} (key : A -> pyval) (a b : A) : result bool :=
  py_lt (key a) (key b).

(** [len(y)]. *)
Definition py_len (y : pyval) : result nat :=
  match y with
  | PStr s | PBytes s => Ok (String.length s)
  | PList l | PTuple l => Ok (List.length l)
  | PDict d => Ok (List.length d)
  | PNdarray (PList l) => Ok (List.length l)
  | PNdarray _ => Raise (TypeError "len() of unsized object")
  | PDataFrame _ rows => Ok (List.length rows)
  | _ => Raise (TypeError "object has no len()")
  end.

(** Whether a dict key equals the int 0 ([0 == 0.0 == False]). *)
Definition key_is_zero (k : pyval) : bool :=
  match num_val k with
  | Some q => Qeq_bool q (0 # 1)%Q
  | None => false
  end.

(** [y[0]].  Indexing an ndarray gives a sub-array or a numpy scalar (held
    as the scalar it denotes), never a list. *)
Definition py_getitem0 (y : pyval) : result pyval :=
  match y with
  | PList l | PTuple l => py_first l
  | PStr (String c _) => Ok (PStr (String c EmptyString))
  | PStr EmptyString => Raise (IndexError "string index out of range")
  | PBytes (String c _) => Ok (PInt (Z.of_nat (nat_of_ascii c)))
  | PBytes EmptyString => Raise (IndexError "index out of range")
  | PDict d =>
      match find (fun kv => key_is_zero (fst kv)) d with
      | Some kv => Ok (snd kv)
      | None => Raise (KeyError "0")
      end
  | PNdarray (PList (x :: _)) => Ok (if is_list x then PNdarray x else x)
  | PNdarray _ => Raise (IndexError "index 0 is out of bounds")
  | PDataFrame _ _ => Raise (KeyError "0")
  | _ => Raise (TypeError "object is not subscriptable")
  end.

(** Whether a dict key equals the int 1. *)
Definition key_is_one (k : pyval) : bool :=
  match num_val k with
  | Some q => Qeq_bool q (1 # 1)%Q
  | None => false
  end.

(** [y[1]], as [y[0]]. *)
Definition py_getitem1 (y : pyval) : result pyval :=
  match y with
  | PList (_ :: x :: _) | PTuple (_ :: x :: _) => Ok x
  | PList _ | PTuple _ => Raise (IndexError "index out of range")
  | PStr (String _ (String c _)) => Ok (PStr (String c EmptyString))
  | PStr _ => Raise (IndexError "string index out of range")
  | PBytes (String _ (String c _)) => Ok (PInt (Z.of_nat (nat_of_ascii c)))
  | PBytes _ => Raise (IndexError "index out of range")
  | PDict d =>
      match find (fun kv => key_is_one (fst kv)) d with
      | Some kv => Ok (snd kv)
      | None => Raise (KeyError "1")
      end
  | PNdarray (PList (_ :: x :: _)) => Ok (if is_list x then PNdarray x else x)
  | PNdarray _ => Raise (IndexError "index 1 is out of bounds")
  | PDataFrame _ _ => Raise (KeyError "1")
  | _ => Raise (TypeError "object is not subscriptable")
  end.

(** [y.tolist()], an ndarray method. *)
Definition ndarray_tolist (y : pyval) : result pyval :=
  match y with
  | PNdarray a => Ok a
  | _ => Raise (AttributeError "object has no attribute 'tolist'")
  end.

(** *** json.dumps on a str *)

Definition dquote : ascii := ascii_of_nat 34.
Definition backslash : ascii := ascii_of_nat 92.

Definition hex_digit (n : nat) : ascii :=
  nth n ["0"; "1"; "2"; "3"; "4"; "5"; "6"; "7"; "8"; "9";
         "a"; "b"; "c"; "d"; "e"; "f"]%char "0"%char.

Definition esc (c : ascii) : string := String backslash (String c EmptyString).

(** The encoder's [ensure_ascii] table: the quote and the backslash are
    escaped, the usual control characters have their short forms, and every
    other character outside [' ' .. '~'] becomes a four-digit [\u] escape. *)
Definition json_escape_char (c : ascii) : string :=
  let n := nat_of_ascii c in
  if Nat.eqb n 34 then esc dquote
  else if Nat.eqb n 92 then esc backslash
  else if Nat.eqb n 10 then esc "n"
  else if Nat.eqb n 13 then esc "r"
  else if Nat.eqb n 9 then esc "t"
  else if Nat.eqb n 12 then esc "f"
  else if Nat.eqb n 8 then esc "b"
  else if Nat.ltb n 32 || Nat.ltb 126 n then
    String backslash
      (String "u" (String "0" (String "0"
         (String (hex_digit (n / 16)) (String (hex_digit (n mod 16)) EmptyString)))))
  else String c EmptyString.

Fixpoint json_escape (s : string) : string :=
  match s with
  | EmptyString => EmptyString
  | String c rest => json_escape_char c ++ json_escape rest
  end.

Definition json_dumps_str (s : string) : string :=
  String dquote (json_escape s ++ String dquote EmptyString).

(** ** The pure components *)

(** *** Textbox *)

Record Textbox : Type := { Textbox_type : string }.

Section Str.
(** The builtin [str]. *)
Variable py_str : pyval -> string.

Definition Textbox_postprocess (self : Textbox) (y : pyval) : result pyval :=
  if (Textbox_type self =? "str") || (Textbox_type self =? "auto") then Ok y
  else if Textbox_type self =? "number" then Ok (PStr (py_str y))
  else Raise (ValueError ("Unknown type: " ++ Textbox_type self
                          ++ ". Please choose from: 'str', 'number'")).
End Str.

(** *** Label *)

Record Label : Type := {
  num_top_classes : option Z;
  Label_type : string
}.

Definition LABEL_KEY : pyval := PStr "label".
Definition CONFIDENCE_KEY : pyval := PStr "confidence".
Definition CONFIDENCES_KEY : pyval := PStr "confidences".

Definition Label_error : string :=
  "The `Label` output interface expects one of: a string label, or an int label, a "
  ++ "float label, or a dictionary whose keys are labels and values are confidences.".

(** One entry of the confidences list. *)
Definition confidence_entry (pred : pyval * pyval) : pyval :=
  PDict [(LABEL_KEY, fst pred); (CONFIDENCE_KEY, snd pred)].

Section LabelStr.
Variable py_str : pyval -> string.

Definition Label_postprocess (self : Label) (y : pyval) : result pyval :=
  if (Label_type self =? "label")
     || ((Label_type self =? "auto") && (is_str y || is_number y))
  then Ok (PDict [(LABEL_KEY, PStr (py_str y))])
  else if (Label_type self =? "confidences")
          || ((Label_type self =? "auto") && is_dict y)
  then
    items <- py_items y ;;
    sorted_pred <- py_sorted (lt_by_key itemgetter1) true items ;;
    let sorted_pred :=
      match num_top_classes self with
      | Some n => py_slice_to n sorted_pred
      | None => sorted_pred
      end in
    top <- py_first sorted_pred ;;
    Ok (PDict [(LABEL_KEY, fst top);
               (CONFIDENCES_KEY, PList (map confidence_entry sorted_pred))])
  else Raise (ValueError Label_error).
End LabelStr.

(** [Label.rebuild]: the wire value is handed back as it is. *)
Definition Label_rebuild (dir : string) (data : pyval) : pyval := data.

(** *** KeyValues *)

Definition KeyValues_error : string :=
  "The `KeyValues` output interface expects an output that is a dictionary whose keys are "
  ++ "labels and values are corresponding values.".

(** [list(y.items())]: each pair as a 2-tuple. *)
Definition items_list (d : list (pyval * pyval)) : list pyval :=
  map (fun kv => PTuple [fst kv; snd kv]) d.

Definition KeyValues_postprocess (y : pyval) : result pyval :=
  match y with
  | PDict d => Ok (PList (items_list d))
  | PList _ => Ok y
  | _ => Raise (ValueError KeyValues_error)
  end.

(** *** HighlightedText *)

Definition HighlightedText_postprocess (y : pyval) : result pyval := Ok y.

(** *** JSON *)

Definition JSON_postprocess (y : pyval) : result pyval :=
  match y with
  | PStr s => Ok (PStr (json_dumps_str s))
  | _ => Ok y
  end.

(** *** Dataframe *)

Record Dataframe : Type := {
  Dataframe_headers : pyval;
  Dataframe_type : string
}.

(** The local [dtype] after the "auto" block: [None] while it is unbound. *)
Definition Dataframe_dtype (self : Dataframe) (y : pyval) : option string :=
  if Dataframe_type self =? "auto" then
    if is_dataframe y then Some "pandas"
    else if is_ndarray y then Some "numpy"
    else if is_list y then Some "array"
    else None
  else Some (Dataframe_type self).

(** Reading a local that may be unbound. *)
Definition read_local (name : string) (v : option string) : result string :=
  match v with
  | Some s => Ok s
  | None => Raise (UnboundLocalError name)
  end.

(** The pandas branch: [list(y.columns)] and [y.values.tolist()]. *)
Definition dataframe_wire (y : pyval) : result pyval :=
  match y with
  | PDataFrame columns rows =>
      Ok (PDict [(PStr "headers", PList columns);
                 (PStr "data", PList (map PList rows))])
  | _ => Raise (AttributeError "object has no attribute 'columns'")
  end.

Definition Dataframe_postprocess (self : Dataframe) (y : pyval) : result pyval :=
  dtype <- read_local "dtype" (Dataframe_dtype self y) ;;
  if dtype =? "pandas" then dataframe_wire y
  else if (dtype =? "numpy") || (dtype =? "array") then
    y <- (if dtype =? "numpy" then ndarray_tolist y else Ok y) ;;
    n <- py_len y ;;
    wrap <- (if Nat.eqb n 0 then Ok true
             else y0 <- py_getitem0 y ;; Ok (negb (is_list y0))) ;;
    let y := if wrap : bool then PList [y] else y in
    Ok (PDict [(PStr "data", y)])
  else Raise (ValueError ("Unknown type: " ++ Dataframe_type self
                          ++ ". Please choose from: 'pandas', 'numpy', 'array'.")).

(** ** The world: files, temporary files and the clock *)

(** What a file holds, by the call that wrote it. *)
Inductive content : Type :=
| Wav (rate data : pyval)
| Picture (format : string) (im : pyval)
| Blob (bytes : string).

Record datetime : Type := {
  year : nat; month : nat; day : nat;
  hour : nat; minute : nat; second : nat
}.

Record world : Type := {
  files : list (string * content);
  dirs : list string;
  open_temps : list string;
  temp_seq : nat;
  clock : datetime
}.

Fixpoint read_file (path : string) (fs : list (string * content)) : option content :=
  match fs with
  | [] => None
  | (p, c) :: rest => if p =? path then Some c else read_file path rest
  end.

Definition write_file (path : string) (c : content) (w : world) : world :=
  {| files := (path, c) :: files w; dirs := dirs w;
     open_temps := open_temps w; temp_seq := temp_seq w; clock := clock w |}.

(** A computation that may change the world and may raise; what it did to
    the world before raising stays done. *)
Definition M (A : Type) : Type := world -> result A * world.

Definition retM {A : Type} (a : A) : M A := fun w => (Ok a, w).

Definition bindM {A B : Type} (m : M A) (k : A -> M B) : M B :=
  fun w =>
    match m w with
    | (Ok a, w') => k a w'
    | (Raise e, w') => (Raise e, w')
    end.

Definition liftM {A : Type} (r : result A) : M A := fun w => (r, w).

Notation "x <-- m ;; k" := (bindM m (fun x => k))
  (at level 61, m at next level, right associativity) : py_scope.

(** [tempfile.NamedTemporaryFile()]: a fresh, empty, open file that is
    deleted when it is closed.  The object is known by its name. *)
Definition temp_name (n : nat) : string := "/tmp/tmp" ++ str_of_nat n.

Definition NamedTemporaryFile : M string :=
  fun w =>
    let name := temp_name (temp_seq w) in
    (Ok name,
     {| files := (name, Blob EmptyString) :: files w; dirs := dirs w;
        open_temps := name :: open_temps w; temp_seq := S (temp_seq w);
        clock := clock w |}).

Fixpoint remove_first (name : string) (names : list string) : list string :=
  match names with
  | [] => []
  | n :: rest => if n =? name then rest else n :: remove_first name rest
  end.

Definition delete_file (path : string) (fs : list (string * content))
    : list (string * content) :=
  filter (fun entry => negb (fst entry =? path)) fs.

(** Closing a NamedTemporaryFile: the handle is gone and, the file being
    delete-on-close, so is the file. *)
Definition close_temp (name : string) (w : world) : world :=
  {| files := delete_file name (files w); dirs := dirs w;
     open_temps := remove_first name (open_temps w); temp_seq := temp_seq w;
     clock := clock w |}.

(** The life of a NamedTemporaryFile that only a local variable of the
    call refers to, from its creation to the end of the call.  The source
    never closes it.  When the call returns, CPython drops the frame and
    with it the last reference: the object is finalised, which closes it.
    When the call raises, the traceback of the exception keeps the frame
    and its locals: the object, and the file, are still there when the
    exception leaves the call. *)
Definition until_frame_exit {A : Type} (file : string) (body : M A) : M A :=
  fun w =>
    match body w with
    | (Ok a, w') => (Ok a, close_temp file w')
    | (Raise e, w') => (Raise e, w')
    end.

(** [datetime.datetime.now()]. *)
Definition datetime_now : M datetime := fun w => (Ok (clock w), w).

Fixpoint zeros (n : nat) : string :=
  match n with
  | O => EmptyString
  | S k => String "0" (zeros k)
  end.

Definition zero_pad (width n : nat) : string :=
  let s := str_of_nat n in zeros (width - String.length s) ++ s.

(** [timestamp.strftime("%Y-%m-%d-%H-%M-%S")]. *)
Definition strftime_Ymd_HMS (t : datetime) : string :=
  zero_pad 4 (year t) ++ "-" ++ zero_pad 2 (month t) ++ "-" ++ zero_pad 2 (day t)
  ++ "-" ++ zero_pad 2 (hour t) ++ "-" ++ zero_pad 2 (minute t)
  ++ "-" ++ zero_pad 2 (second t).

Fixpoint has_slash (s : string) : bool :=
  match s with
  | EmptyString => false
  | String c rest => Ascii.eqb c "/" || has_slash rest
  end.

(** The part of a path before its last slash. *)
Fixpoint dirname (s : string) : string :=
  match s with
  | EmptyString => EmptyString
  | String c rest => if has_slash rest then String c (dirname rest) else EmptyString
  end.

(** [im.save(path, format)] of a PIL image: the file is created in a
    directory that must exist. *)
Definition PIL_save (im : pyval) (path format : string) : M unit :=
  fun w =>
    if is_pil_image im then
      if existsb (String.eqb (dirname path)) (dirs w)
      then (Ok tt, write_file path (Picture format im) w)
      else (Raise (FileNotFoundError path), w)
    else (Raise (AttributeError "object has no attribute 'save'"), w).

(** ** The components that use the encoding utilities *)

Record Image : Type := { Image_type : string }.

(** [Image.__init__]: the deprecated [plot] flag forces the type. *)
Definition Image_init (type : string) (plot : bool) : Image :=
  if plot then {| Image_type := "plot" |} else {| Image_type := type |}.

Record Audio : Type := { Audio_type : string }.

(** The local [dtype] of [Image.postprocess] after the "auto" block. *)
Definition Image_dtype (self : Image) (y : pyval) : option string :=
  if Image_type self =? "auto" then
    if is_ndarray y then Some "numpy"
    else if is_pil_image y then Some "pil"
    else if is_str y then Some "file"
    else if is_module y then Some "plot"
    else None
  else Some (Image_type self).

Section ProcessingUtils.
(** [gradio.processing_utils] and [numpy.array], which the components
    call and this file does not define.  An argument the call site leaves
    to its default is [None].  The file encoder reads the file system. *)
Variable encode_array_to_base64 : pyval -> result pyval.
Variable encode_file_to_base64 :
  world -> pyval -> option string -> option string -> option bool -> result pyval.
Variable encode_plot_to_base64 : pyval -> result pyval.
Variable decode_base64_to_image : pyval -> result pyval.
Variable np_array : pyval -> result pyval.
(** [scipy.io.wavfile.write], which this file does not define either: the
    WAV data it makes of a rate and samples, or the exception it raises.
    The writer checks the samples and packs the header, rate included,
    before it writes anything, so a write that raises leaves the file as
    it was. *)
Variable wav_encode : pyval -> pyval -> result content.

(** [scipy.io.wavfile.write(file, rate, data)] on an open file; the
    writer ends by seeking to the start of the file it was given, which
    flushes what it wrote. *)
Definition wavfile_write (file : string) (rate data : pyval) : M unit :=
  fun w =>
    match wav_encode rate data with
    | Ok wav => (Ok tt, write_file file wav w)
    | Raise e => (Raise e, w)
    end.

Definition Image_postprocess (self : Image) (y : pyval) : M pyval :=
  dtype <-- liftM (read_local "dtype" (Image_dtype self y)) ;;
  if (dtype =? "numpy") || (dtype =? "pil") then
    y <-- liftM (if dtype =? "pil" then np_array y else Ok y) ;;
    liftM (encode_array_to_base64 y)
  else if dtype =? "file" then
    fun w => (encode_file_to_base64 w y None None None, w)
  else if dtype =? "plot" then
    liftM (encode_plot_to_base64 y)
  else liftM (Raise (ValueError ("Unknown type: " ++ dtype
           ++ ". Please choose from: 'numpy', 'pil', 'file', 'plot'."))).

Definition Image_rebuild (dir : string) (data : pyval) : M pyval :=
  im <-- liftM (decode_base64_to_image data) ;;
  timestamp <-- datetime_now ;;
  let filename := ("output_" ++ strftime_Ymd_HMS timestamp ++ ".png")%string in
  _ <-- PIL_save im (dir ++ "/" ++ filename) "PNG" ;;
  retM (PStr filename).

(** The last statement of [Audio.postprocess]. *)
Definition Audio_encode (y : pyval) : M pyval :=
  fun w => (encode_file_to_base64 w y (Some "audio") (Some "wav") None, w).

(** The numpy branch once [file] is bound: the arguments of the writer
    are evaluated left to right, the pair is written as WAV, and [y]
    becomes the file's name, a str that keeps no reference to the file
    object. *)
Definition Audio_write_wav (file : string) (y : pyval) : M pyval :=
  rate <-- liftM (py_getitem0 y) ;;
  data <-- liftM (py_getitem1 y) ;;
  _ <-- wavfile_write file rate data ;;
  Audio_encode (PStr file).

(** [Audio.postprocess].  On the numpy branch the local [file] is bound
    first and lives to the end of the call. *)
Definition Audio_postprocess (self : Audio) (y : pyval) : M pyval :=
  if (Audio_type self =? "numpy") || (Audio_type self =? "file")
     || (Audio_type self =? "auto")
  then
    if (Audio_type self =? "numpy")
       || ((Audio_type self =? "auto") && is_tuple y)
    then
      file <-- NamedTemporaryFile ;;
      until_frame_exit file (Audio_write_wav file y)
    else Audio_encode y
  else liftM (Raise (ValueError ("Unknown type: " ++ Audio_type self
           ++ ". Please choose from: 'numpy', 'file'."))).
End ProcessingUtils.

(** ** Instances of the collaborators for concrete runs *)

(** Modelled from the spec: [processing_utils.encode_file_to_base64], whose
    source is not among the files of this development.  The spec describes
    its result as a "string beginning with a data-URI-style prefix
    identifying content type, followed by base64 payload"; the payload text
    is left out.  The path is opened as Python's [open] does: a str or
    bytes path of an existing file. *)
Definition demo_encode_file (w : world) (f : pyval)
    (type ext : option string) (header : option bool) : result pyval :=
  match f with
  | PStr p | PBytes p =>
      match read_file p (files w) with
      | Some _ =>
          Ok (PStr ("data:" ++ match type with Some t => t | None => "image" end
                    ++ "/" ++ match ext with Some e => e | None => "" end
                    ++ ";base64,"))
      | None => Raise (FileNotFoundError p)
      end
  | _ => Raise (TypeError "expected str, bytes or os.PathLike object")
  end.

(** A file encoder whose read fails. *)
Definition failing_encode_file (w : world) (f : pyval)
    (type ext : option string) (header : option bool) : result pyval :=
  Raise (OSError "read failed").

(** Modelled from the spec: [processing_utils.decode_base64_to_image],
    "decode the base64 payload into an image"; the pixels are kept as the
    payload that denotes them. *)
Definition demo_decode_image (data : pyval) : result pyval :=
  match data with
  | PStr _ => Ok (PImage data)
  | _ => Raise (TypeError "expected a base64 string")
  end.

(** An array (or plot) encoder that always succeeds; the payload text is
    left out. *)
Definition demo_encode_array (y : pyval) : result pyval :=
  Ok (PStr "data:image/png;base64,").

(** [numpy.array] on a PIL image gives the array of its pixels. *)
Definition demo_np_array (y : pyval) : result pyval :=
  match y with
  | PImage px => Ok (PNdarray px)
  | _ => Ok (PNdarray y)
  end.

(** A WAV writer for concrete runs: it takes an int rate that fits the
    header's unsigned 32-bit field and samples held in an ndarray. *)
Definition demo_wav_encode (rate data : pyval) : result content :=
  match rate with
  | PInt z =>
      if ((0 <=? z) && (z <? 4294967296))%Z then
        if is_ndarray data then Ok (Wav rate data)
        else Raise (AttributeError "object has no attribute 'dtype'")
      else Raise (OSError "struct.error: argument out of range")
  | _ => Raise (OSError "struct.error: required argument is not an integer")
  end.

Definition demo_clock : datetime :=
  {| year := 2021; month := 3; day := 9; hour := 14; minute := 5; second := 7 |}.

Definition demo_world : world :=
  {| files := [("clip.wav", Blob "RIFF")]; dirs := ["out"; "/tmp"];
     open_temps := []; temp_seq := 0; clock := demo_clock |}.

(** ** What the specification says, in its own words *)

(** The score of a (category, score) entry. *)
Definition score (pred : pyval * pyval) : Q :=
  match num_val (snd pred) with
  | Some q => q
  | None => (0 # 1)%Q
  end.

(** A mapping from category to score: every value is a number, that is
    a bool, an int or a finite float (a NaN or an infinity is no value
    here). *)
Definition numeric_scores (m : list (pyval * pyval)) : Prop :=
  Forall (fun kv => is_number (snd kv) = true) m.

(** [max(m, key=m.get)]: the running best is replaced only by a strictly
    greater score, so the first maximal key in iteration order wins. *)
Fixpoint max_entry_from (best : pyval * pyval) (rest : list (pyval * pyval))
    : pyval * pyval :=
  match rest with
  | [] => best
  | e :: rest' =>
      max_entry_from (if Qltb (score best) (score e) then e else best) rest'
  end.

Definition max_entry (m : list (pyval * pyval)) : option (pyval * pyval) :=
  match m with
  | [] => None
  | e :: rest => Some (max_entry_from e rest)
  end.

(** Sorted ascending, and descending, by a rational key. *)
Definition ascending_by {A : Type} (key : A -> Q) : list A -> Prop :=
  StronglySorted (fun a b => (key a <= key b)%Q).

Definition descending_by {A : Type} (key : A -> Q) : list A -> Prop :=
  StronglySorted (fun a b => (key b <= key a)%Q).

(** The elements whose key is [q]. *)
Definition in_class {A : Type} (key : A -> Q) (q : Q) (e : A) : bool :=
  Qeq_bool (key e) q.

(** Sorted descending by score. *)
Definition descending (l : list (pyval * pyval)) : Prop := descending_by score l.

Definition has_score (q : Q) (e : pyval * pyval) : bool := in_class score q e.

(** [out] is [m] sorted descending by score with a stable sort: the same
    entries, in descending order, the entries of each score in the order
    they have in [m]. *)
Definition stable_descending_sort (m out : list (pyval * pyval)) : Prop :=
  Permutation m out /\ descending out
  /\ forall q, filter (has_score q) out = filter (has_score q) m.

(** The length the spec gives the confidences list:
    [min(len(m), num_top_classes or len(m))]. *)
Definition spec_confidences_length (num_top : option Z) (m : list (pyval * pyval)) : Z :=
  Z.min (Z.of_nat (List.length m))
        (match num_top with
         | Some n => if (n =? 0)%Z then Z.of_nat (List.length m) else n
         | None => Z.of_nat (List.length m)
         end).

(** A message names a type value when it holds it between single quotes,
    the way the components' messages list their choices. *)
Fixpoint containsb (p s : string) : bool :=
  String.prefix p s
  || match s with
     | EmptyString => false
     | String _ rest => containsb p rest
     end.

Definition quoted (v : string) : string := "'" ++ v ++ "'".

Definition enumerates (msg : string) (values : list string) : bool :=
  forallb (fun v => containsb (quoted v) msg) values.

(** [b] is the first entry of [m] with the greatest score. *)
Definition first_max (m : list (pyval * pyval)) (b : pyval * pyval) : Prop :=
  In b m /\ Forall (fun x => (score x <= score b)%Q) m
  /\ hd_error (filter (has_score (score b)) m) = Some b.

(** A 1D list: empty, or its first element is not a list. *)
Definition flat_1d (l : list pyval) : Prop :=
  l = [] \/ exists x rest, l = x :: rest /\ is_list x = false.

(** A nested 2D list: it has rows, and every row is a list. *)
Definition nested_2d (l : list pyval) : Prop :=
  l <> [] /\ Forall (fun row => is_list row = true) l.









(** Reading a JSON string literal back ([json.loads] on the literal):
    the text between the quotes with its escapes undone.  A [\u] escape
    above code point 255 is outside the str of this model. *)
Definition hex_value (c : ascii) : option nat :=
  let n := nat_of_ascii c in
  if Nat.leb 48 n && Nat.leb n 57 then Some (n - 48)
  else if Nat.leb 97 n && Nat.leb n 102 then Some (n - 87)
  else if Nat.leb 65 n && Nat.leb n 70 then Some (n - 55)
  else None.

Definition unescape_char (e : ascii) : option ascii :=
  let n := nat_of_ascii e in
  if Nat.eqb n 34 then Some dquote
  else if Nat.eqb n 92 then Some backslash
  else if Nat.eqb n 47 then Some "/"%char
  else if Nat.eqb n 110 then Some (ascii_of_nat 10)
  else if Nat.eqb n 114 then Some (ascii_of_nat 13)
  else if Nat.eqb n 116 then Some (ascii_of_nat 9)
  else if Nat.eqb n 102 then Some (ascii_of_nat 12)
  else if Nat.eqb n 98 then Some (ascii_of_nat 8)
  else None.

Definition code_point (a b c d : ascii) : option ascii :=
  match hex_value a, hex_value b, hex_value c, hex_value d with
  | Some x3, Some x2, Some x1, Some x0 =>
      let n := ((x3 * 16 + x2) * 16 + x1) * 16 + x0 in
      if Nat.ltb n 256 then Some (ascii_of_nat n) else None
  | _, _, _, _ => None
  end.

Definition cons_char (c : option ascii) (rest : option string) : option string :=
  match c, rest with
  | Some c, Some rest => Some (String c rest)
  | _, _ => None
  end.

(** The body of a literal, up to and including its closing quote. *)
Fixpoint json_unescape (s : string) : option string :=
  match s with
  | EmptyString => None
  | String c rest =>
      if Nat.eqb (nat_of_ascii c) 34 then
        match rest with EmptyString => Some EmptyString | _ => None end
      else if Nat.eqb (nat_of_ascii c) 92 then
        match rest with
        | String e rest' =>
            if Nat.eqb (nat_of_ascii e) 117 then
              match rest' with
              | String h3 (String h2 (String h1 (String h0 rest''))) =>
                  cons_char (code_point h3 h2 h1 h0) (json_unescape rest'')
              | _ => None
              end
            else cons_char (unescape_char e) (json_unescape rest')
        | EmptyString => None
        end
      else if Nat.ltb (nat_of_ascii c) 32 then None
      else cons_char (Some c) (json_unescape rest)
  end.

Definition json_loads_str (s : string) : option string :=
  match s with
  | String q body => if Nat.eqb (nat_of_ascii q) 34 then json_unescape body else None
  | EmptyString => None
  end.

(** Every temporary file created since [before] has been closed (a
    NamedTemporaryFile is deleted when it is closed). *)
Definition temp_files_released (before after : world) : Prop :=
  open_temps after = open_temps before.

(** ** The rest of the module *)

(** *** File *)

(** [os.path.basename]: the text after the last slash. *)
Fixpoint basename (s : string) : string :=
  match s with
  | EmptyString => EmptyString
  | String _ rest => if has_slash s then basename rest else s
  end.

(** [os.path.basename(y)]: a str gives a str, bytes give bytes, anything
    else is refused by [os.fspath]. *)
Definition os_path_basename (y : pyval) : result pyval :=
  match y with
  | PStr p => Ok (PStr (basename p))
  | PBytes p => Ok (PBytes (basename p))
  | _ => Raise (TypeError "expected str, bytes or os.PathLike object")
  end.

(** The kinds of value that are no path: neither a str, nor bytes, nor an
    object with [__fspath__]. *)
Definition not_a_path (y : pyval) : bool :=
  match y with
  | PNone | PBool _ | PInt _ | PFloat _ | PList _ | PTuple _ | PDict _
  | PNdarray _ | PImage _ | PModule _ | PDataFrame _ _ => true
  | PStr _ | PBytes _ => false
  end.

Section FileComponent.
(** [os.path.getsize] and the file encoder read the file system. *)
Variable getsize : world -> pyval -> result Z.
Variable encode_file_to_base64 :
  world -> pyval -> option string -> option string -> option bool -> result pyval.

(** [File.postprocess]: the three entries of the dict display are
    evaluated in the order they are written. *)
Definition File_postprocess (y : pyval) (w : world) : result pyval :=
  name <- os_path_basename y ;;
  size <- getsize w y ;;
  data <- encode_file_to_base64 w y None None (Some false) ;;
  Ok (PDict [(PStr "name", name); (PStr "size", PInt size); (PStr "data", data)]).
End FileComponent.

(** A [getsize] for concrete runs: the length of a blob. *)
Definition demo_getsize (w : world) (y : pyval) : result Z :=
  match y with
  | PStr p | PBytes p =>
      match read_file p (files w) with
      | Some (Blob bytes) => Ok (Z.of_nat (String.length bytes))
      | Some _ => Ok 0%Z
      | None => Raise (FileNotFoundError p)
      end
  | _ => Raise (TypeError "stat: path should be string, bytes or os.PathLike")
  end.

(** A headerless file encoder for concrete runs: the payload text of an
    existing file is left out. *)
Definition demo_encode_file_raw (w : world) (f : pyval)
    (type ext : option string) (header : option bool) : result pyval :=
  match f with
  | PStr p | PBytes p =>
      match read_file p (files w) with
      | Some _ => Ok (PStr "UklGRg==")
      | None => Raise (FileNotFoundError p)
      end
  | _ => Raise (TypeError "expected str, bytes or os.PathLike object")
  end.

(** *** Template contexts *)

(** A template context: a dict with str keys, in insertion order. *)
Definition context : Type := list (string * pyval).

Fixpoint dict_get (k : string) (d : context) : option pyval :=
  match d with
  | [] => None
  | (k', v) :: rest => if k' =? k then Some v else dict_get k rest
  end.

(** [d[k] = v]: a key already there keeps its place. *)
Fixpoint dict_set (k : string) (v : pyval) (d : context) : context :=
  match d with
  | [] => [(k, v)]
  | (k', v') :: rest =>
      if k' =? k then (k', v) :: rest else (k', v') :: dict_set k v rest
  end.

(** The [**base] of a dict display: the entries of [base] are stored one
    after the other into what the display holds so far. *)
Definition dict_unpack (d base : context) : context :=
  fold_left (fun acc kv => dict_set (fst kv) (snd kv) acc) base d.

Section TemplateContext.
(** [super().get_template_context()], from the Component base class. *)
Variable base : context.

Definition Textbox_get_template_context : context := dict_unpack [] base.

Definition Audio_get_template_context : context := dict_unpack [] base.

Definition HighlightedText_get_template_context (color_map : pyval) : context :=
  dict_unpack [("color_map", color_map)] base.

Definition Dataframe_get_template_context (self : Dataframe) : context :=
  dict_unpack [("headers", Dataframe_headers self)] base.
End TemplateContext.

(** *** Shortcuts *)













(** *** SimpleImage *)

(** The two fields of [FileData] the component sets or reads. *)
Record FileData : Type := {
  FileData_path : string;
  FileData_orig_name : string
}.

(** The pieces of a path between its slashes. *)
Fixpoint split_slash (s : string) : list string :=
  match s with
  | EmptyString => [EmptyString]
  | String c rest =>
      if Ascii.eqb c "/" then EmptyString :: split_slash rest
      else match split_slash rest with
           | piece :: pieces => String c piece :: pieces
           | [] => [String c EmptyString]
           end
  end.

(** The components of a [pathlib] path (POSIX flavour): empty pieces and
    "." are dropped. *)
Definition path_parts (s : string) : list string :=
  filter (fun piece => negb ((piece =? "") || (piece =? "."))) (split_slash s).

(** [Path(s).name]: the final component, empty when there is none. *)
Definition Path_name (s : string) : string := last (path_parts s) EmptyString.

(** [SimpleImage.preprocess]. *)
Definition SimpleImage_preprocess (payload : option FileData) : option string :=
  match payload with
  | None => None
  | Some data => Some (FileData_path data)
  end.

(** [SimpleImage.postprocess]; a str or Path value is held by its [str()]
    text. *)
Definition SimpleImage_postprocess (value : option string) : option FileData :=
  match value with
  | None => None
  | Some v => Some {| FileData_path := v; FileData_orig_name := Path_name v |}
  end.

Definition SimpleImage_example_value : string :=
  "https://raw.githubusercontent.com/gradio-app/gradio/main/test/test_files/bus.png".


(** ** Notions the further properties use *)



(** No two entries of [m] have the same score. *)
Definition distinct_scores (m : list (pyval * pyval)) : Prop :=
  forall a b, In a m -> In b m -> (score a == score b)%Q -> a = b.

(** The wire value of the mapping branch for a list of shown entries. *)
Definition confidences_wire (shown : list (pyval * pyval)) : result pyval :=
  top <- py_first shown ;;
  Ok (PDict [(LABEL_KEY, fst top);
             (CONFIDENCES_KEY, PList (map confidence_entry shown))]).

(** How many entries [sorted_pred[:n]] keeps of a list of [len] entries,
    and how many the mapping branch shows for a given [num_top_classes]. *)
Definition kept_by_slice (n : Z) (len : nat) : nat :=
  if (0 <=? n)%Z then Nat.min (Z.to_nat n) len else len - Z.to_nat (- n).

Definition shown_count (num_top : option Z) (len : nat) : nat :=
  match num_top with
  | Some n => kept_by_slice n len
  | None => len
  end.


(** * Properties *)

(** ** Results and the order on scores *)

Lemma Qltb_true (x y : Q) : Qltb x y = true <-> (x < y)%Q.
Proof.
  unfold Qltb. rewrite negb_true_iff. split; intro H.
  - apply Qnot_le_lt. intro Hle. apply Qle_bool_iff in Hle. congruence.
  - destruct (Qle_bool y x) eqn:E; [|reflexivity].
    apply Qle_bool_iff in E. exfalso. exact (Qlt_not_le _ _ H E).
Qed.

Lemma Qltb_false (x y : Q) : Qltb x y = false <-> (y <= x)%Q.
Proof.
  unfold Qltb. rewrite negb_false_iff. apply Qle_bool_iff.
Qed.

Lemma num_val_number (v : pyval) :
  is_number v = true -> exists q, num_val v = Some q.
Proof.
  destruct v; simpl; try discriminate; intros _.
  - destruct b; eauto.
  - eauto.
  - eauto.
Qed.

(** On numbers the comparison never raises and is the order of the scores. *)
Lemma lt_by_key_score (a b : pyval * pyval) :
  is_number (snd a) = true -> is_number (snd b) = true ->
  lt_by_key itemgetter1 a b = Ok (Qltb (score a) (score b)).
Proof.
  intros Ha Hb. unfold lt_by_key, itemgetter1, py_lt, score.
  destruct (num_val_number _ Ha) as [x ->].
  destruct (num_val_number _ Hb) as [y ->].
  reflexivity.
Qed.

(** ** The sort *)

Section StableSort.
Variable A : Type.
Variable lt : A -> A -> result bool.
Variable key : A -> Q.
Variable comparable : A -> Prop.
Hypothesis lt_key :
  forall x y, comparable x -> comparable y -> lt x y = Ok (Qltb (key x) (key y)).

(** Where [insort] puts an element of a sorted list: after everything
    that is not greater, before everything that is. *)
Lemma insort_splits (x : A) (l : list A) :
  comparable x -> Forall comparable l -> ascending_by key l ->
  exists l1 l2,
    l = l1 ++ l2 /\ insort lt x l = Ok (l1 ++ x :: l2)
    /\ Forall (fun y => (key y <= key x)%Q) l1
    /\ Forall (fun y => (key x < key y)%Q) l2.
Proof.
  intros Hx Hl Hs. induction l as [|y l IH].
  - exists [], []. simpl. auto.
  - inversion Hl as [|? ? Hy Hl']; subst.
    inversion Hs as [|? ? Hs' Hall]; subst.
    simpl. rewrite (lt_key Hx Hy). simpl.
    destruct (Qltb (key x) (key y)) eqn:E.
    + apply Qltb_true in E.
      exists [], (y :: l). simpl. repeat split; auto.
      constructor; [exact E|].
      eapply Forall_impl; [|exact Hall]. simpl. intros z Hz.
      eapply Qlt_le_trans; eauto.
    + apply Qltb_false in E.
      destruct (IH Hl' Hs') as (l1 & l2 & -> & Hins & H1 & H2).
      exists (y :: l1), l2. rewrite Hins. simpl. repeat split; auto.
  Qed.

Lemma ascending_insert (x : A) (l1 l2 : list A) :
  ascending_by key (l1 ++ l2) ->
  Forall (fun y => (key y <= key x)%Q) l1 ->
  Forall (fun y => (key x < key y)%Q) l2 ->
  ascending_by key (l1 ++ x :: l2).
Proof.
  induction l1 as [|a l1 IH]; simpl; intros Hs H1 H2.
  - constructor; [exact Hs|].
    eapply Forall_impl; [|exact H2]. intros z Hz. apply Qlt_le_weak, Hz.
  - inversion Hs as [|? ? Hs' Hall]; subst.
    inversion H1 as [|? ? Ha H1']; subst.
    constructor; [apply IH; assumption|].
    apply Forall_app in Hall. destruct Hall as [Hl1 Hl2].
    apply Forall_app. split; [exact Hl1|].
    constructor; assumption.
Qed.

(** An element above a score has another score. *)
Lemma class_above (q : Q) (x : A) (l : list A) :
  in_class key q x = true -> Forall (fun y => (key x < key y)%Q) l ->
  filter (in_class key q) l = [].
Proof.
  intros Hq Hl. induction Hl as [|y l Hy _ IH]; simpl; [reflexivity|].
  rewrite IH. unfold in_class in *. apply Qeq_bool_iff in Hq.
  destruct (Qeq_bool (key y) q) eqn:E; [|reflexivity].
  apply Qeq_bool_iff in E. exfalso.
  rewrite Hq, E in Hy. exact (Qlt_irrefl _ Hy).
Qed.

Lemma filter_insert (q : Q) (x : A) (l1 l2 : list A) :
  Forall (fun y => (key x < key y)%Q) l2 ->
  filter (in_class key q) (l1 ++ x :: l2)
  = filter (in_class key q) (l1 ++ l2) ++ filter (in_class key q) [x].
Proof.
  intros H2. rewrite !filter_app. simpl.
  destruct (in_class key q x) eqn:E.
  - rewrite (class_above _ E H2). rewrite app_nil_r. reflexivity.
  - rewrite app_nil_r. reflexivity.
Qed.

(** The ascending pass: it ends, and its outcome holds the same elements
    in ascending order, each score class in the order of arrival. *)
Lemma fold_insort (l acc : list A) :
  Forall comparable l -> Forall comparable acc -> ascending_by key acc ->
  exists r,
    fold_left (fun a x => a0 <- a ;; insort lt x a0) l (Ok acc) = Ok r
    /\ Permutation (acc ++ l) r /\ ascending_by key r
    /\ forall q, filter (in_class key q) r
                 = filter (in_class key q) acc ++ filter (in_class key q) l.
Proof.
  revert acc. induction l as [|x l IH]; intros acc Hl Hacc Hs.
  - exists acc. simpl. rewrite app_nil_r. repeat split; auto.
    intro q. rewrite app_nil_r. reflexivity.
  - inversion Hl as [|? ? Hx Hl']; subst.
    destruct (insort_splits Hx Hacc Hs) as (l1 & l2 & -> & Hins & H1 & H2).
    simpl. rewrite Hins.
    assert (Hacc' : Forall comparable (l1 ++ x :: l2)).
    { apply Forall_app in Hacc. destruct Hacc as [Ha1 Ha2].
      apply Forall_app. split; [exact Ha1|]. constructor; assumption. }
    destruct (IH (l1 ++ x :: l2) Hl' Hacc' (ascending_insert Hs H1 H2))
      as (r & Hr & Hperm & Hsr & Hfil).
    exists r. repeat split; auto.
    + eapply Permutation_trans; [|exact Hperm].
      rewrite <- !app_assoc. apply Permutation_app_head.
      simpl. apply Permutation_sym, Permutation_middle.
    + intro q. rewrite Hfil, (filter_insert q _ H2).
      rewrite <- app_assoc. simpl. destruct (in_class key q x); reflexivity.
Qed.

Lemma sort_ascending_spec (l : list A) :
  Forall comparable l ->
  exists r,
    sort_ascending lt l = Ok r /\ Permutation l r /\ ascending_by key r
    /\ forall q, filter (in_class key q) r = filter (in_class key q) l.
Proof.
  intro Hl.
  destruct (@fold_insort l [] Hl (Forall_nil _) (SSorted_nil _))
    as (r & Hr & Hperm & Hs & Hfil).
  exists r. repeat split; auto.
Qed.

Lemma descending_snoc (a : A) (m : list A) :
  descending_by key m ->
  Forall (fun b => (key a <= key b)%Q) m ->
  descending_by key (m ++ [a]).
Proof.
  induction 1 as [|b m Hm IH Hb]; simpl; intro Hall.
  - repeat constructor.
  - inversion Hall as [|? ? Hab Hall']; subst.
    constructor; [apply IH; exact Hall'|].
    apply Forall_app. split; [exact Hb|]. repeat constructor. exact Hab.
Qed.

Lemma ascending_rev (l : list A) :
  ascending_by key l -> descending_by key (rev l).
Proof.
  induction 1 as [|a l Hs IH Hall]; simpl; [constructor|].
  apply descending_snoc; [exact IH|].
  apply Forall_rev. exact Hall.
Qed.

(** [sorted(l, reverse=True)] ends, and its outcome holds the elements of
    [l] in descending order, each score class in its order in [l]. *)
Lemma py_sorted_reverse_spec (l : list A) :
  Forall comparable l ->
  exists out,
    py_sorted lt true l = Ok out /\ Permutation l out
    /\ descending_by key out
    /\ forall q, filter (in_class key q) out = filter (in_class key q) l.
Proof.
  intro Hl.
  assert (Hrev : Forall comparable (rev l)) by (apply Forall_rev; exact Hl).
  destruct (sort_ascending_spec Hrev) as (r & Hr & Hperm & Hs & Hfil).
  exists (rev r). unfold py_sorted. rewrite Hr. simpl. repeat split.
  - eapply Permutation_trans; [apply Permutation_rev|].
    eapply Permutation_trans; [exact Hperm|]. apply Permutation_rev.
  - apply ascending_rev. exact Hs.
  - intro q. rewrite filter_rev, Hfil, filter_rev, rev_involutive. reflexivity.
Qed.
End StableSort.

(** ** Label: the top entry *)

Lemma has_score_refl (e : pyval * pyval) : has_score (score e) e = true.
Proof. apply Qeq_bool_refl. Qed.

Lemma has_score_below (b : pyval * pyval) (q : Q) (l : list (pyval * pyval)) :
  Forall (fun x => (score x <= score b)%Q) l -> (score b < q)%Q ->
  filter (has_score q) l = [].
Proof.
  intros Hall Hlt. induction Hall as [|x l Hx _ IH]; simpl; [reflexivity|].
  rewrite IH. unfold has_score, in_class.
  destruct (Qeq_bool (score x) q) eqn:E; [|reflexivity].
  apply Qeq_bool_iff in E. exfalso. rewrite E in Hx.
  exact (Qlt_not_le _ _ Hlt Hx).
Qed.

Lemma hd_error_app_some (A : Type) (l1 l2 : list A) (a : A) :
  hd_error l1 = Some a -> hd_error (l1 ++ l2) = Some a.
Proof. destruct l1; simpl; [discriminate|auto]. Qed.

Lemma max_entry_from_first (rest pre : list (pyval * pyval)) (best : pyval * pyval) :
  first_max pre best -> first_max (pre ++ rest) (max_entry_from best rest).
Proof.
  revert pre best. induction rest as [|e rest IH]; intros pre best Hb.
  - rewrite app_nil_r. exact Hb.
  - simpl. replace (pre ++ e :: rest) with ((pre ++ [e]) ++ rest)
      by (rewrite <- app_assoc; reflexivity).
    apply IH. destruct Hb as (Hin & Hall & Hhd).
    destruct (Qltb (score best) (score e)) eqn:E.
    + apply Qltb_true in E. repeat split.
      * apply in_or_app. right. left. reflexivity.
      * apply Forall_app. split.
        -- eapply Forall_impl; [|exact Hall]. simpl. intros x Hx.
           apply Qlt_le_weak. eapply Qle_lt_trans; eauto.
        -- repeat constructor. apply Qle_refl.
      * rewrite filter_app, (@has_score_below best _ pre Hall E). simpl.
        rewrite has_score_refl. reflexivity.
    + apply Qltb_false in E. repeat split.
      * apply in_or_app. left. exact Hin.
      * apply Forall_app. split; [exact Hall|]. repeat constructor. exact E.
      * rewrite filter_app. apply hd_error_app_some. exact Hhd.
Qed.

Lemma max_entry_first (m : list (pyval * pyval)) (b : pyval * pyval) :
  max_entry m = Some b -> first_max m b.
Proof.
  destruct m as [|e rest]; simpl; [discriminate|].
  intro H. injection H as <-.
  apply (@max_entry_from_first rest [e] e). repeat split.
  - left. reflexivity.
  - repeat constructor. apply Qle_refl.
  - simpl. rewrite has_score_refl. reflexivity.
Qed.

Lemma sorted_head_first (m t : list (pyval * pyval)) (h : pyval * pyval) :
  stable_descending_sort m (h :: t) -> first_max m h.
Proof.
  intros (Hperm & Hdesc & Hfil). repeat split.
  - eapply Permutation_in; [apply Permutation_sym; exact Hperm|]. left. reflexivity.
  - apply Forall_forall. intros x Hx.
    apply (Permutation_in _ Hperm) in Hx.
    inversion Hdesc as [|? ? _ Hall]; subst.
    destruct Hx as [<-|Hx]; [apply Qle_refl|].
    rewrite Forall_forall in Hall. apply Hall. exact Hx.
  - rewrite <- Hfil. simpl. rewrite has_score_refl. reflexivity.
Qed.

Lemma first_max_unique (m : list (pyval * pyval)) (a b : pyval * pyval) :
  first_max m a -> first_max m b -> a = b.
Proof.
  intros (Hina & Halla & Hhda) (Hinb & Hallb & Hhdb).
  rewrite Forall_forall in Halla, Hallb.
  assert (Heq : (score a == score b)%Q).
  { apply Qle_antisym; [apply Hallb|apply Halla]; assumption. }
  assert (Hext : filter (has_score (score a)) m = filter (has_score (score b)) m).
  { apply filter_ext. intro x. unfold has_score, in_class. rewrite Heq. reflexivity. }
  rewrite Hext in Hhda. congruence.
Qed.

(** The head of the stably sorted list is what [max(m, key=m.get)] picks. *)
Lemma sorted_head_is_max (m t : list (pyval * pyval)) (h : pyval * pyval) :
  stable_descending_sort m (h :: t) -> max_entry m = Some h.
Proof.
  intro Hs. pose proof (sorted_head_first Hs) as Hh.
  destruct m as [|e rest].
  - destruct Hs as (Hperm & _). apply Permutation_nil in Hperm. discriminate.
  - simpl. f_equal. eapply first_max_unique; [|exact Hh].
    apply max_entry_first. reflexivity.
Qed.

(** The sort inside [Label.postprocess], on numeric scores. *)
Lemma label_sort (m : list (pyval * pyval)) :
  numeric_scores m ->
  exists out,
    py_sorted (lt_by_key itemgetter1) true m = Ok out
    /\ stable_descending_sort m out.
Proof.
  intro Hnum.
  destruct (@py_sorted_reverse_spec _ (lt_by_key itemgetter1) score
              (fun kv => is_number (snd kv) = true) lt_by_key_score m Hnum)
    as (out & Hout & Hperm & Hdesc & Hfil).
  exists out. split; [exact Hout|]. repeat split; assumption.
Qed.

(** ** Label.postprocess on mappings *)

Lemma py_slice_to_positive (A : Type) (n : Z) (h : A) (t : list A) :
  (1 <= n)%Z ->
  py_slice_to n (h :: t) = firstn (Z.to_nat n) (h :: t)
  /\ exists k, firstn (Z.to_nat n) (h :: t) = h :: firstn k t.
Proof.
  intro Hn. unfold py_slice_to.
  replace (0 <=? n)%Z with true by (symmetry; apply Z.leb_le; lia).
  split; [reflexivity|].
  exists (Nat.pred (Z.to_nat n)).
  destruct (Z.to_nat n) as [|k] eqn:E; [lia|]. reflexivity.
Qed.

Lemma py_slice_to_nil (A : Type) (n : Z) : py_slice_to n (@nil A) = [].
Proof.
  unfold py_slice_to. destruct (0 <=? n)%Z; apply firstn_nil.
Qed.

(** With the type "confidences" or "auto", a dict takes the second branch. *)
Lemma Label_mapping_branch
    (py_str : pyval -> string) (self : Label) (m : list (pyval * pyval)) :
  Label_type self = "confidences" \/ Label_type self = "auto" ->
  Label_postprocess py_str self (PDict m)
  = (sorted_pred <- py_sorted (lt_by_key itemgetter1) true m ;;
     let sorted_pred :=
       match num_top_classes self with
       | Some n => py_slice_to n sorted_pred
       | None => sorted_pred
       end in
     top <- py_first sorted_pred ;;
     Ok (PDict [(LABEL_KEY, fst top);
                (CONFIDENCES_KEY, PList (map confidence_entry sorted_pred))])).
Proof.
  unfold Label_postprocess. intros [-> | ->]; reflexivity.
Qed.

(** C1 (as amended): for a non-empty mapping [m] from category to score
    whose scores are finite numbers (bools, ints, floats that are neither
    NaN nor infinite), with [num_top_classes] unset or at least 1 and the
    type "confidences" or "auto", [Label.postprocess] returns the wire
    value whose label is the first key of maximal score (what
    [max(m, key=m.get)] picks) and whose confidences are the entries of
    [m] sorted descending by score with a stable sort, cut to the first
    [num_top_classes] when set; the list has
    [min(len(m), num_top_classes or len(m))] entries. *)
Theorem Label_postprocess_confidences
    (py_str : pyval -> string) (self : Label) (m : list (pyval * pyval)) :
  Label_type self = "confidences" \/ Label_type self = "auto" ->
  numeric_scores m ->
  m <> [] ->
  (forall n, num_top_classes self = Some n -> (1 <= n)%Z) ->
  exists top sorted_pred shown,
    max_entry m = Some top
    /\ stable_descending_sort m sorted_pred
    /\ shown = match num_top_classes self with
               | Some n => firstn (Z.to_nat n) sorted_pred
               | None => sorted_pred
               end
    /\ Label_postprocess py_str self (PDict m)
       = Ok (PDict [(LABEL_KEY, fst top);
                    (CONFIDENCES_KEY, PList (map confidence_entry shown))])
    /\ Z.of_nat (List.length shown) = spec_confidences_length (num_top_classes self) m.
Proof.
  intros Htype Hnum Hne Htop.
  destruct (label_sort Hnum) as (out & Hout & Hsort).
  destruct out as [|h t].
  { destruct Hsort as (Hperm & _). apply Permutation_sym, Permutation_nil in Hperm.
    contradiction. }
  pose proof (sorted_head_is_max Hsort) as Hmax.
  assert (Hlen : List.length (h :: t) = List.length m).
  { symmetry. apply Permutation_length. apply Hsort. }
  assert (Hrun : forall shown,
    py_first shown = Ok h ->
    shown = match num_top_classes self with
            | Some n => py_slice_to n (h :: t)
            | None => h :: t
            end ->
    Label_postprocess py_str self (PDict m)
    = Ok (PDict [(LABEL_KEY, fst h);
                 (CONFIDENCES_KEY, PList (map confidence_entry shown))])).
  { intros shown Hfirst Hshown.
    rewrite (Label_mapping_branch py_str self m Htype), Hout.
    cbv beta iota zeta delta [bind]. rewrite <- Hshown, Hfirst. reflexivity. }
  exists h, (h :: t).
  destruct (num_top_classes self) as [n|] eqn:En.
  - specialize (Htop n eq_refl).
    destruct (@py_slice_to_positive _ n h t Htop) as (Hslice & k & Hk).
    exists (firstn (Z.to_nat n) (h :: t)).
    split; [exact Hmax|]. split; [exact Hsort|]. split; [reflexivity|]. split.
    + apply Hrun; [rewrite Hk; reflexivity|symmetry; exact Hslice].
    + rewrite length_firstn, Hlen. unfold spec_confidences_length.
      replace (n =? 0)%Z with false by (symmetry; apply Z.eqb_neq; lia).
      lia.
  - exists (h :: t).
    split; [exact Hmax|]. split; [exact Hsort|]. split; [reflexivity|]. split.
    + apply Hrun; reflexivity.
    + rewrite Hlen. unfold spec_confidences_length. lia.
Qed.

(** The spec's scenario:
    [Label(num_top_classes=2).postprocess({"cat":0.2,"dog":0.7,"bird":0.1})]. *)
Lemma Label_postprocess_confidences_witness :
  exists top sorted_pred shown,
    max_entry [(PStr "cat", PFloat (2 # 10)); (PStr "dog", PFloat (7 # 10));
               (PStr "bird", PFloat (1 # 10))] = Some top
    /\ stable_descending_sort
         [(PStr "cat", PFloat (2 # 10)); (PStr "dog", PFloat (7 # 10));
          (PStr "bird", PFloat (1 # 10))] sorted_pred
    /\ shown = firstn 2 sorted_pred
    /\ Label_postprocess scalar_str
         {| num_top_classes := Some 2%Z; Label_type := "auto" |}
         (PDict [(PStr "cat", PFloat (2 # 10)); (PStr "dog", PFloat (7 # 10));
                 (PStr "bird", PFloat (1 # 10))])
       = Ok (PDict [(LABEL_KEY, fst top);
                    (CONFIDENCES_KEY, PList (map confidence_entry shown))])
    /\ Z.of_nat (List.length shown) = 2%Z.
Proof.
  refine (@Label_postprocess_confidences scalar_str
            {| num_top_classes := Some 2%Z; Label_type := "auto" |}
            [(PStr "cat", PFloat (2 # 10)); (PStr "dog", PFloat (7 # 10));
             (PStr "bird", PFloat (1 # 10))] _ _ _ _).
  - right. reflexivity.
  - repeat constructor.
  - discriminate.
  - simpl. intros n H. injection H as <-. lia.
Defined.

(** C1 as stated fails: with [num_top_classes = 0] the claim's length
    [min(len(m), num_top_classes or len(m))] is [len(m)], and on the empty
    mapping it is 0, but in both cases the call raises instead of
    returning a wire value. *)
Lemma Label_postprocess_confidences_counterexample :
  Label_postprocess scalar_str
    {| num_top_classes := Some 0%Z; Label_type := "confidences" |}
    (PDict [(PStr "cat", PFloat (2 # 10)); (PStr "dog", PFloat (7 # 10))])
  = Raise (IndexError "list index out of range")
  /\ spec_confidences_length (Some 0%Z)
       [(PStr "cat", PFloat (2 # 10)); (PStr "dog", PFloat (7 # 10))] = 2%Z
  /\ Label_postprocess scalar_str
       {| num_top_classes := None; Label_type := "auto" |} (PDict [])
     = Raise (IndexError "list index out of range").
Proof.
  repeat split.
Qed.

(** C10: on the empty mapping, with the type "confidences" or "auto" and
    whatever [num_top_classes] is, [Label.postprocess] returns no wire
    value: taking the top entry of the empty sorted list raises
    IndexError. *)
Theorem Label_postprocess_empty_mapping
    (py_str : pyval -> string) (num_top : option Z) :
  Label_postprocess py_str
    {| num_top_classes := num_top; Label_type := "confidences" |} (PDict [])
  = Raise (IndexError "list index out of range")
  /\ Label_postprocess py_str
       {| num_top_classes := num_top; Label_type := "auto" |} (PDict [])
     = Raise (IndexError "list index out of range").
Proof.
  unfold Label_postprocess. simpl.
  destruct num_top as [n|]; simpl.
  - rewrite py_slice_to_nil. simpl. split; reflexivity.
  - split; reflexivity.
Qed.

(** ** "auto" against the explicit types *)

(** C2 (as amended): on each documented value shape, "auto" gives what the
    matching explicit type gives: Label (scalar as "label", dict as
    "confidences"), Image (ndarray "numpy", PIL image "pil", str "file",
    module "plot"), Audio (tuple "numpy", str "file"), Dataframe (DataFrame
    "pandas", ndarray "numpy", list "array").  For Textbox "auto" is "str" on
    every value: the value is passed through, a number included. *)
Theorem auto_agrees_with_explicit_type
    (py_str : pyval -> string)
    (encode_array encode_plot np_array : pyval -> result pyval)
    (encode_file : world -> pyval -> option string -> option string
                   -> option bool -> result pyval)
    (wav_encode : pyval -> pyval -> result content) :
  (forall y,
     Textbox_postprocess py_str {| Textbox_type := "auto" |} y
     = Textbox_postprocess py_str {| Textbox_type := "str" |} y
     /\ Textbox_postprocess py_str {| Textbox_type := "auto" |} y = Ok y)
  /\ (forall top s z q b m,
        let auto := {| num_top_classes := top; Label_type := "auto" |} in
        let label := {| num_top_classes := top; Label_type := "label" |} in
        let confidences := {| num_top_classes := top; Label_type := "confidences" |} in
        Label_postprocess py_str auto (PStr s) = Label_postprocess py_str label (PStr s)
        /\ Label_postprocess py_str auto (PInt z) = Label_postprocess py_str label (PInt z)
        /\ Label_postprocess py_str auto (PFloat q) = Label_postprocess py_str label (PFloat q)
        /\ Label_postprocess py_str auto (PBool b) = Label_postprocess py_str label (PBool b)
        /\ Label_postprocess py_str auto (PDict m)
           = Label_postprocess py_str confidences (PDict m))
  /\ (forall a px s name,
        let image t := Image_postprocess encode_array encode_file encode_plot np_array
                         {| Image_type := t |} in
        image "auto" (PNdarray a) = image "numpy" (PNdarray a)
        /\ image "auto" (PImage px) = image "pil" (PImage px)
        /\ image "auto" (PStr s) = image "file" (PStr s)
        /\ image "auto" (PModule name) = image "plot" (PModule name))
  /\ (forall l s,
        let audio t := Audio_postprocess encode_file wav_encode {| Audio_type := t |} in
        audio "auto" (PTuple l) = audio "numpy" (PTuple l)
        /\ audio "auto" (PStr s) = audio "file" (PStr s))
  /\ (forall headers columns rows a l,
        let dataframe t := Dataframe_postprocess
                             {| Dataframe_headers := headers; Dataframe_type := t |} in
        dataframe "auto" (PDataFrame columns rows) = dataframe "pandas" (PDataFrame columns rows)
        /\ dataframe "auto" (PNdarray a) = dataframe "numpy" (PNdarray a)
        /\ dataframe "auto" (PList l) = dataframe "array" (PList l)).
Proof.
  split; [|split; [|split; [|split]]].
  - intro y. split; reflexivity.
  - intros top s z q b m. cbv zeta. repeat split.
  - intros a px s name. cbv zeta. repeat split.
  - intros l s. cbv zeta. split; reflexivity.
  - intros headers columns rows a l. cbv zeta. repeat split.
Qed.

(** C2 as stated fails for Textbox: "auto" on the number 5 is the number,
    "number" on it is its decimal text. *)
Lemma Textbox_auto_number_counterexample :
  Textbox_postprocess scalar_str {| Textbox_type := "auto" |} (PInt 5) = Ok (PInt 5)
  /\ Textbox_postprocess scalar_str {| Textbox_type := "number" |} (PInt 5) = Ok (PStr "5")
  /\ Textbox_postprocess scalar_str {| Textbox_type := "auto" |} (PInt 5)
     <> Textbox_postprocess scalar_str {| Textbox_type := "number" |} (PInt 5).
Proof.
  split; [reflexivity|]. split; [reflexivity|].
  cbv. intro H. discriminate H.
Qed.

(** Whatever [str] is, "number" yields a str and "auto" on a number a
    number, so the two never agree on a number. *)
Lemma Textbox_auto_differs_from_number (py_str : pyval -> string) (y : pyval) :
  is_number y = true ->
  Textbox_postprocess py_str {| Textbox_type := "auto" |} y
  <> Textbox_postprocess py_str {| Textbox_type := "number" |} y.
Proof.
  intros Hy H. cbv [Textbox_postprocess Textbox_type] in H. simpl in H.
  injection H as Heq. rewrite Heq in Hy. discriminate Hy.
Qed.

(** ** Values no shape predicate accepts *)

Lemma containsb_app (p a b : string) :
  containsb p b = true -> containsb p (a ++ b) = true.
Proof.
  intro H. induction a as [|c a IH]; simpl; [exact H|].
  rewrite IH. apply orb_true_r.
Qed.

(** C3 (as amended): under "auto", Label given a value that is not a str, a
    number or a dict fails with the ValueError whose message names the
    accepted shapes; Audio has a single predicate (tuple) and hands every
    other value to the file encoder as a path, so what the call then does
    is the encoder's outcome and the world is untouched. *)
Theorem auto_unmatched_value
    (py_str : pyval -> string)
    (encode_file : world -> pyval -> option string -> option string
                   -> option bool -> result pyval)
    (wav_encode : pyval -> pyval -> result content)
    (top : option Z) (y : pyval) (w : world) :
  (is_str y = false -> is_number y = false -> is_dict y = false ->
   Label_postprocess py_str {| num_top_classes := top; Label_type := "auto" |} y
   = Raise (ValueError Label_error)
   /\ containsb "a string label" Label_error = true
   /\ containsb "an int label" Label_error = true
   /\ containsb "float label" Label_error = true
   /\ containsb "a dictionary" Label_error = true)
  /\ (is_tuple y = false ->
      Audio_postprocess encode_file wav_encode {| Audio_type := "auto" |} y w
      = (encode_file w y (Some "audio") (Some "wav") None, w)).
Proof.
  split.
  - intros Hs Hn Hd. split; [|repeat split].
    unfold Label_postprocess. simpl. rewrite Hs, Hn, Hd. reflexivity.
  - intro Ht. unfold Audio_postprocess. simpl. rewrite Ht. reflexivity.
Qed.

(** [Label(type="auto").postprocess(None)] and
    [Audio(type="auto").postprocess(5)]. *)
Lemma auto_unmatched_value_witness :
  Label_postprocess scalar_str {| num_top_classes := None; Label_type := "auto" |} PNone
  = Raise (ValueError Label_error)
  /\ Audio_postprocess demo_encode_file demo_wav_encode {| Audio_type := "auto" |}
       (PInt 5) demo_world
     = (Raise (TypeError "expected str, bytes or os.PathLike object"), demo_world).
Proof.
  split.
  - exact (proj1 (proj1 (auto_unmatched_value scalar_str demo_encode_file
                           demo_wav_encode None PNone demo_world)
                    eq_refl eq_refl eq_refl)).
  - exact (proj2 (auto_unmatched_value scalar_str demo_encode_file demo_wav_encode
                    None (PInt 5) demo_world) eq_refl).
Defined.

(** C3 as stated fails.  An int matches none of Image's or Dataframe's
    shape predicates, and the call ends in UnboundLocalError on the local
    [dtype], whose message names no shape; a bytes path matches none of
    Audio's documented shapes (tuple, str), and the call succeeds. *)
Lemma auto_unmatched_value_counterexample :
  Image_postprocess demo_encode_array demo_encode_file demo_encode_array demo_np_array
    {| Image_type := "auto" |} (PInt 5) demo_world
  = (Raise (UnboundLocalError "dtype"), demo_world)
  /\ Dataframe_postprocess {| Dataframe_headers := PNone; Dataframe_type := "auto" |} (PInt 5)
     = Raise (UnboundLocalError "dtype")
  /\ Audio_postprocess demo_encode_file demo_wav_encode {| Audio_type := "auto" |}
       (PBytes "clip.wav")
       demo_world
     = (Ok (PStr "data:audio/wav;base64,"), demo_world).
Proof.
  repeat split.
Qed.

(** Whatever the encoders are, a value that is no ndarray, PIL image, str
    or module leaves [dtype] unbound in [Image.postprocess], and one that
    is no DataFrame, ndarray or list leaves it unbound in
    [Dataframe.postprocess]. *)
Lemma auto_leaves_dtype_unbound
    (encode_array encode_plot np_array : pyval -> result pyval)
    (encode_file : world -> pyval -> option string -> option string
                   -> option bool -> result pyval)
    (headers : pyval) (z : Z) (w : world) :
  Image_postprocess encode_array encode_file encode_plot np_array
    {| Image_type := "auto" |} (PInt z) w
  = (Raise (UnboundLocalError "dtype"), w)
  /\ Dataframe_postprocess
       {| Dataframe_headers := headers; Dataframe_type := "auto" |} (PInt z)
     = Raise (UnboundLocalError "dtype").
Proof.
  split; reflexivity.
Qed.

(** ** Dataframe.postprocess on lists *)

Lemma Dataframe_list_run (headers : pyval) (type : string) (l : list pyval) :
  type = "array" \/ type = "auto" ->
  Dataframe_postprocess {| Dataframe_headers := headers; Dataframe_type := type |} (PList l)
  = Ok (PDict [(PStr "data",
                match l with
                | [] => PList [PList l]
                | x :: _ => if is_list x then PList l else PList [PList l]
                end)]).
Proof.
  intros [-> | ->]; destruct l as [|x rest]; try reflexivity;
    unfold Dataframe_postprocess; simpl; destruct (is_list x); reflexivity.
Qed.

(** C4: with the type "array" or "auto", a flat 1D list (empty, or with a
    first element that is not a list) becomes the single row of
    [{"data": [l]}], and a nested 2D list is emitted as it is,
    [{"data": l}]. *)
Theorem Dataframe_postprocess_list (headers : pyval) (type : string) (l : list pyval) :
  type = "array" \/ type = "auto" ->
  (flat_1d l ->
   Dataframe_postprocess {| Dataframe_headers := headers; Dataframe_type := type |} (PList l)
   = Ok (PDict [(PStr "data", PList [PList l])]))
  /\ (nested_2d l ->
      Dataframe_postprocess {| Dataframe_headers := headers; Dataframe_type := type |} (PList l)
      = Ok (PDict [(PStr "data", PList l)])).
Proof.
  intro Htype. rewrite (Dataframe_list_run headers l Htype). split.
  - intros [-> | (x & rest & -> & Hx)]; [reflexivity|]. rewrite Hx. reflexivity.
  - intros [Hne Hrows]. destruct l as [|x rest]; [contradiction|].
    inversion Hrows as [|? ? Hx _]; subst. rewrite Hx. reflexivity.
Qed.

(** The spec's scenario [Dataframe().postprocess([1,2,3])], and a table of
    two rows. *)
Lemma Dataframe_postprocess_list_witness :
  Dataframe_postprocess {| Dataframe_headers := PNone; Dataframe_type := "auto" |}
    (PList [PInt 1; PInt 2; PInt 3])
  = Ok (PDict [(PStr "data", PList [PList [PInt 1; PInt 2; PInt 3]])])
  /\ Dataframe_postprocess {| Dataframe_headers := PNone; Dataframe_type := "array" |}
       (PList [PList [PInt 1; PInt 2]; PList [PInt 3; PInt 4]])
     = Ok (PDict [(PStr "data", PList [PList [PInt 1; PInt 2]; PList [PInt 3; PInt 4]])]).
Proof.
  split.
  - apply (Dataframe_postprocess_list PNone [PInt 1; PInt 2; PInt 3]
             (or_intror eq_refl)).
    right. exists (PInt 1), [PInt 2; PInt 3]. split; reflexivity.
  - apply (Dataframe_postprocess_list PNone
             [PList [PInt 1; PInt 2]; PList [PInt 3; PInt 4]] (or_introl eq_refl)).
    split; [discriminate|]. repeat constructor.
Defined.

(** ** KeyValues.postprocess *)

(** C5: a mapping becomes the list of its (key, value) pairs in iteration
    order, a list is returned unchanged, and anything else fails with the
    ValueError that describes the expected type (a dictionary of labels
    and values). *)
Theorem KeyValues_postprocess_shapes :
  (forall d, KeyValues_postprocess (PDict d)
             = Ok (PList (map (fun kv => PTuple [fst kv; snd kv]) d)))
  /\ (forall l, KeyValues_postprocess (PList l) = Ok (PList l))
  /\ (forall y, is_dict y = false -> is_list y = false ->
        KeyValues_postprocess y = Raise (ValueError KeyValues_error)
        /\ containsb "expects an output that is a dictionary" KeyValues_error = true).
Proof.
  split; [|split].
  - intro d. reflexivity.
  - intro l. reflexivity.
  - intros y Hd Hl. split; [|reflexivity].
    destruct y; try reflexivity; discriminate.
Qed.

(** The spec's scenario [KeyValues().postprocess({"a":1,"b":2})], a list,
    and an int. *)
Lemma KeyValues_postprocess_shapes_witness :
  KeyValues_postprocess (PDict [(PStr "a", PInt 1); (PStr "b", PInt 2)])
  = Ok (PList [PTuple [PStr "a"; PInt 1]; PTuple [PStr "b"; PInt 2]])
  /\ KeyValues_postprocess (PList [PInt 1]) = Ok (PList [PInt 1])
  /\ KeyValues_postprocess (PInt 7) = Raise (ValueError KeyValues_error).
Proof.
  split; [|split].
  - exact (proj1 KeyValues_postprocess_shapes
             [(PStr "a", PInt 1); (PStr "b", PInt 2)]).
  - exact (proj1 (proj2 KeyValues_postprocess_shapes) [PInt 1]).
  - exact (proj1 (proj2 (proj2 KeyValues_postprocess_shapes) (PInt 7) eq_refl eq_refl)).
Defined.

(** ** Unknown explicit types *)

Lemma enumerates_app (pre msg : string) (values : list string) :
  enumerates msg values = true -> enumerates (pre ++ msg) values = true.
Proof.
  unfold enumerates. rewrite !forallb_forall. intros H v Hv.
  apply containsb_app. apply H. exact Hv.
Qed.

Lemma eqb_ne (t v : string) : t <> v -> (t =? v) = false.
Proof. intro H. apply String.eqb_neq. exact H. Qed.

(** C6 (as amended): a type string that is none of the component's values
    always makes postprocess fail with a ValueError.  For Textbox, Image,
    Audio and Dataframe the message is "Unknown type: <type>. Please choose
    from: ..." and lists the explicit type values between quotes; for Label
    it is the value-shape message. *)
Theorem unknown_type_fails
    (py_str : pyval -> string)
    (encode_array encode_plot np_array : pyval -> result pyval)
    (encode_file : world -> pyval -> option string -> option string
                   -> option bool -> result pyval)
    (wav_encode : pyval -> pyval -> result content)
    (t : string) (y : pyval) (w : world) :
  (t <> "str" -> t <> "auto" -> t <> "number" ->
   exists msg,
     Textbox_postprocess py_str {| Textbox_type := t |} y = Raise (ValueError msg)
     /\ msg = ("Unknown type: " ++ t ++ ". Please choose from: 'str', 'number'")%string
     /\ enumerates msg ["str"; "number"] = true)
  /\ (t <> "auto" -> t <> "numpy" -> t <> "pil" -> t <> "file" -> t <> "plot" ->
      exists msg,
        Image_postprocess encode_array encode_file encode_plot np_array
          {| Image_type := t |} y w = (Raise (ValueError msg), w)
        /\ msg = ("Unknown type: " ++ t
                 ++ ". Please choose from: 'numpy', 'pil', 'file', 'plot'.")%string
        /\ enumerates msg ["numpy"; "pil"; "file"; "plot"] = true)
  /\ (t <> "numpy" -> t <> "file" -> t <> "auto" ->
      exists msg,
        Audio_postprocess encode_file wav_encode {| Audio_type := t |} y w
        = (Raise (ValueError msg), w)
        /\ msg = ("Unknown type: " ++ t ++ ". Please choose from: 'numpy', 'file'.")%string
        /\ enumerates msg ["numpy"; "file"] = true)
  /\ (forall headers,
      t <> "auto" -> t <> "pandas" -> t <> "numpy" -> t <> "array" ->
      exists msg,
        Dataframe_postprocess {| Dataframe_headers := headers; Dataframe_type := t |} y
        = Raise (ValueError msg)
        /\ msg = ("Unknown type: " ++ t
                 ++ ". Please choose from: 'pandas', 'numpy', 'array'.")%string
        /\ enumerates msg ["pandas"; "numpy"; "array"] = true)
  /\ (forall top,
      t <> "label" -> t <> "auto" -> t <> "confidences" ->
      Label_postprocess py_str {| num_top_classes := top; Label_type := t |} y
      = Raise (ValueError Label_error)).
Proof.
  split; [|split; [|split; [|split]]].
  - intros H1 H2 H3. eexists. split; [|split; [reflexivity|]].
    + unfold Textbox_postprocess. simpl.
      rewrite (eqb_ne H1), (eqb_ne H2), (eqb_ne H3). reflexivity.
    + apply enumerates_app, enumerates_app. reflexivity.
  - intros H1 H2 H3 H4 H5. eexists. split; [|split; [reflexivity|]].
    + unfold Image_postprocess, Image_dtype, bindM, liftM. simpl.
      rewrite (eqb_ne H1). simpl.
      rewrite (eqb_ne H2), (eqb_ne H3), (eqb_ne H4), (eqb_ne H5). reflexivity.
    + apply enumerates_app, enumerates_app. reflexivity.
  - intros H1 H2 H3. eexists. split; [|split; [reflexivity|]].
    + unfold Audio_postprocess, liftM. simpl.
      rewrite (eqb_ne H1), (eqb_ne H2), (eqb_ne H3). reflexivity.
    + apply enumerates_app, enumerates_app. reflexivity.
  - intros headers H1 H2 H3 H4. eexists. split; [|split; [reflexivity|]].
    + unfold Dataframe_postprocess, Dataframe_dtype. simpl.
      rewrite (eqb_ne H1). simpl.
      rewrite (eqb_ne H2), (eqb_ne H3), (eqb_ne H4). reflexivity.
    + apply enumerates_app, enumerates_app. reflexivity.
  - intros top H1 H2 H3. unfold Label_postprocess. simpl.
    rewrite (eqb_ne H1), (eqb_ne H2), (eqb_ne H3). reflexivity.
Qed.

(** The type "video" on each component. *)
Lemma unknown_type_fails_witness :
  (exists msg,
     Textbox_postprocess scalar_str {| Textbox_type := "video" |} (PInt 1)
     = Raise (ValueError msg)
     /\ msg = "Unknown type: video. Please choose from: 'str', 'number'"
     /\ enumerates msg ["str"; "number"] = true)
  /\ (exists msg,
        Audio_postprocess demo_encode_file demo_wav_encode {| Audio_type := "video" |}
          (PInt 1) demo_world
        = (Raise (ValueError msg), demo_world)
        /\ msg = "Unknown type: video. Please choose from: 'numpy', 'file'."
        /\ enumerates msg ["numpy"; "file"] = true)
  /\ Label_postprocess scalar_str {| num_top_classes := None; Label_type := "video" |}
       (PInt 1)
     = Raise (ValueError Label_error).
Proof.
  pose proof (unknown_type_fails scalar_str demo_encode_array demo_encode_array
                demo_np_array demo_encode_file demo_wav_encode "video" (PInt 1)
                demo_world) as H.
  destruct H as (HT & _ & HA & _ & HL).
  split; [|split].
  - apply HT; discriminate.
  - apply HA; discriminate.
  - apply HL; discriminate.
Defined.

(** C6 as stated fails for Label: the unknown type "video" is refused, but
    the message is the value-shape one; it lists no type value and does
    not name the offending type. *)
Lemma Label_unknown_type_counterexample :
  Label_postprocess scalar_str {| num_top_classes := None; Label_type := "video" |}
    (PStr "cat")
  = Raise (ValueError Label_error)
  /\ enumerates Label_error ["label"; "confidences"] = false
  /\ containsb (quoted "label") Label_error = false
  /\ containsb (quoted "confidences") Label_error = false
  /\ containsb "auto" Label_error = false
  /\ containsb "video" Label_error = false
  /\ containsb "Unknown type" Label_error = false.
Proof.
  repeat split.
Qed.

(** ** Image.rebuild *)

Lemma has_slash_app (a b : string) :
  has_slash (a ++ b) = has_slash a || has_slash b.
Proof.
  induction a as [|c a IH]; simpl; [reflexivity|].
  rewrite IH. apply orb_assoc.
Qed.









Lemma append_assoc (a b c : string) : ((a ++ b) ++ c = a ++ (b ++ c))%string.
Proof.
  induction a as [|x a IH]; simpl; [reflexivity|]. rewrite IH. reflexivity.
Qed.






(** The filename of that run. *)
Example Image_rebuild_demo_filename :
  fst (Image_rebuild demo_decode_image "out" (PStr "data:image/png;base64,AAAA")
         demo_world)
  = Ok (PStr "output_2021-03-09-14-05-07.png").
Proof. vm_compute. reflexivity. Qed.

(** ** JSON.postprocess *)

Lemma append_String (c : ascii) (a b : string) :
  (String c a ++ b)%string = String c (a ++ b)%string.
Proof. reflexivity. Qed.

(** Undoing the escape of one character gives the character back. *)
Lemma json_unescape_char (c : ascii) (rest : string) :
  json_unescape (json_escape_char c ++ rest)
  = cons_char (Some c) (json_unescape rest).
Proof.
  destruct c as [[] [] [] [] [] [] [] []]; reflexivity.
Qed.

Lemma json_unescape_escape (s : string) :
  json_unescape (json_escape s ++ String dquote EmptyString) = Some s.
Proof.
  induction s as [|c s IH].
  - reflexivity.
  - cbn [json_escape]. rewrite append_assoc, json_unescape_char, IH. reflexivity.
Qed.

Lemma json_loads_dumps (s : string) : json_loads_str (json_dumps_str s) = Some s.
Proof.
  unfold json_dumps_str, json_loads_str.
  change (Nat.eqb (nat_of_ascii dquote) 34) with true. cbv iota.
  apply json_unescape_escape.
Qed.

(** C8: a str is returned re-encoded as a JSON string literal (a quoted,
    escaped text that reads back as the input), and every other value is
    returned as it is: the call cannot fail. *)
Theorem JSON_postprocess_double_encodes :
  (forall s,
     JSON_postprocess (PStr s) = Ok (PStr (json_dumps_str s))
     /\ json_loads_str (json_dumps_str s) = Some s)
  /\ (forall y, is_str y = false -> JSON_postprocess y = Ok y).
Proof.
  split.
  - intro s. split; [reflexivity|apply json_loads_dumps].
  - intros y Hy. destruct y; try reflexivity. discriminate Hy.
Qed.

(** A str of three characters, the middle one a double quote, and a
    one-entry dict. *)
Lemma JSON_postprocess_double_encodes_witness :
  JSON_postprocess (PStr (String "a" (String dquote (String "b" EmptyString))))
  = Ok (PStr (String dquote (String "a" (String backslash (String dquote
              (String "b" (String dquote EmptyString)))))))
  /\ JSON_postprocess (PDict [(PStr "a", PInt 1)]) = Ok (PDict [(PStr "a", PInt 1)]).
Proof.
  split.
  - exact (proj1 (proj1 JSON_postprocess_double_encodes
                    (String "a" (String dquote (String "b" EmptyString))))).
  - exact (proj2 JSON_postprocess_double_encodes (PDict [(PStr "a", PInt 1)]) eq_refl).
Defined.

(** ** Audio.postprocess and its temporary file *)

Lemma cons_neq_self (A : Type) (x : A) (l : list A) : x :: l <> l.
Proof.
  intro H. apply (f_equal (@List.length A)) in H. simpl in H. lia.
Qed.

Lemma read_file_deleted (path : string) (fs : list (string * content)) :
  read_file path (delete_file path fs) = None.
Proof.
  unfold delete_file.
  induction fs as [|[p c] fs IH]; [reflexivity|].
  cbn [filter fst]. destruct (p =? path) eqn:E; cbn [negb].
  - exact IH.
  - cbn [read_file]. rewrite E. exact IH.
Qed.

Lemma read_file_delete_other (path p : string) (fs : list (string * content)) :
  p <> path -> read_file p (delete_file path fs) = read_file p fs.
Proof.
  intro Hp. unfold delete_file.
  induction fs as [|[p0 c] fs IH]; [reflexivity|].
  cbn [filter fst read_file]. destruct (p0 =? path) eqn:E; cbn [negb].
  - apply String.eqb_eq in E. subst p0.
    rewrite (eqb_ne (not_eq_sym Hp)). exact IH.
  - cbn [read_file]. rewrite IH. reflexivity.
Qed.

(** Writing and encoding touch nothing but the file they are given. *)
Lemma Audio_write_wav_world
    (encode_file : world -> pyval -> option string -> option string
                   -> option bool -> result pyval)
    (wav_encode : pyval -> pyval -> result content)
    (file : string) (y : pyval) (w : world) :
  snd (Audio_write_wav encode_file wav_encode file y w) = w
  \/ exists wav, snd (Audio_write_wav encode_file wav_encode file y w)
                 = write_file file wav w.
Proof.
  unfold Audio_write_wav, bindM, liftM, wavfile_write, Audio_encode.
  destruct (py_getitem0 y) as [rate|]; [|left; reflexivity].
  destruct (py_getitem1 y) as [data|]; [|left; reflexivity].
  destruct (wav_encode rate data) as [wav|]; [|left; reflexivity].
  right. exists wav. reflexivity.
Qed.

(** On the numpy path the call is the writing and encoding, run from the
    creation of the temporary file to the exit of the frame. *)
Lemma Audio_numpy_path
    (encode_file : world -> pyval -> option string -> option string
                   -> option bool -> result pyval)
    (wav_encode : pyval -> pyval -> result content)
    (self : Audio) (y : pyval) (w : world) :
  Audio_type self = "numpy" \/ (Audio_type self = "auto" /\ is_tuple y = true) ->
  Audio_postprocess encode_file wav_encode self y w
  = until_frame_exit (temp_name (temp_seq w))
      (Audio_write_wav encode_file wav_encode (temp_name (temp_seq w)) y)
      (snd (NamedTemporaryFile w)).
Proof.
  intros [Ht | [Ht Hy]]; unfold Audio_postprocess; rewrite Ht; simpl;
    rewrite ?Hy; reflexivity.
Qed.

(** C9 (as amended): on the numpy path the WAV data goes to a
    NamedTemporaryFile that is held by a local only: no scoped block, no
    close.  When the call returns, the file has been closed and deleted as
    the frame went away.  When a step after its creation raises (reading
    the pair, the WAV writer or the base64 encoder), the exception leaves
    the call with the file still there and still open: on that exit path
    its deletion is not part of the call. *)
Theorem Audio_temp_file_fate
    (encode_file : world -> pyval -> option string -> option string
                   -> option bool -> result pyval)
    (wav_encode : pyval -> pyval -> result content)
    (self : Audio) (y : pyval) (w : world) :
  Audio_type self = "numpy" \/ (Audio_type self = "auto" /\ is_tuple y = true) ->
  let run := Audio_postprocess encode_file wav_encode self y w in
  let file := temp_name (temp_seq w) in
  (forall wire, fst run = Ok wire ->
     temp_files_released w (snd run)
     /\ read_file file (files (snd run)) = None)
  /\ (forall e, fst run = Raise e ->
        open_temps (snd run) = file :: open_temps w
        /\ (exists held, read_file file (files (snd run)) = Some held)
        /\ ~ temp_files_released w (snd run)).
Proof.
  intro Hpath. cbv zeta.
  rewrite (@Audio_numpy_path encode_file wav_encode self y w Hpath).
  unfold until_frame_exit.
  pose proof (Audio_write_wav_world encode_file wav_encode (temp_name (temp_seq w)) y
                (snd (NamedTemporaryFile w))) as Hworld.
  destruct (Audio_write_wav encode_file wav_encode (temp_name (temp_seq w)) y
              (snd (NamedTemporaryFile w))) as [[wire|e] w1].
  - split; [|intros e H; discriminate H].
    intros wire' _. cbn [snd] in *. split.
    + unfold temp_files_released.
      destruct Hworld as [-> | [wav ->]]; cbn; rewrite String.eqb_refl; reflexivity.
    + cbn [close_temp files]. apply read_file_deleted.
  - split; [intros wire H; discriminate H|].
    intros e' _. cbn [snd] in *.
    assert (Hopen : open_temps w1 = temp_name (temp_seq w) :: open_temps w).
    { destruct Hworld as [-> | [wav ->]]; reflexivity. }
    split; [exact Hopen|]. split.
    + destruct Hworld as [-> | [wav ->]]; eexists; cbn;
        rewrite String.eqb_refl; reflexivity.
    + unfold temp_files_released. rewrite Hopen. apply cons_neq_self.
Qed.

(** [Audio(type="numpy").postprocess((44100, samples))] with an encoder
    that succeeds: the call returns and the file is gone. *)
Lemma Audio_temp_file_fate_witness :
  temp_files_released demo_world
    (snd (Audio_postprocess demo_encode_file demo_wav_encode {| Audio_type := "numpy" |}
            (PTuple [PInt 44100; PNdarray (PList [PInt 0; PInt 1])]) demo_world))
  /\ read_file "/tmp/tmp0"
       (files (snd (Audio_postprocess demo_encode_file demo_wav_encode
                      {| Audio_type := "numpy" |}
                      (PTuple [PInt 44100; PNdarray (PList [PInt 0; PInt 1])])
                      demo_world)))
     = None.
Proof.
  apply (proj1 (@Audio_temp_file_fate demo_encode_file demo_wav_encode
                  {| Audio_type := "numpy" |}
                  (PTuple [PInt 44100; PNdarray (PList [PInt 0; PInt 1])]) demo_world
                  (or_introl eq_refl))
           (PStr "data:audio/wav;base64,")).
  reflexivity.
Defined.

(** C9 as stated fails: when the base64 encoding step raises, the call
    ends with the exception and the temporary file, holding the WAV data,
    is still there and still open. *)
Lemma Audio_temp_file_counterexample :
  let run :=
    Audio_postprocess failing_encode_file demo_wav_encode {| Audio_type := "auto" |}
      (PTuple [PInt 44100; PNdarray (PList [PInt 0; PInt 1])]) demo_world in
  fst run = Raise (OSError "read failed")
  /\ open_temps (snd run) = ["/tmp/tmp0"]
  /\ read_file "/tmp/tmp0" (files (snd run))
     = Some (Wav (PInt 44100) (PNdarray (PList [PInt 0; PInt 1])))
  /\ ~ temp_files_released demo_world (snd run).
Proof.
  cbv zeta. split; [reflexivity|]. split; [reflexivity|]. split; [reflexivity|].
  unfold temp_files_released. simpl. discriminate.
Qed.

(** * Further properties *)

(** ** Label.postprocess for any [num_top_classes] *)

Lemma py_slice_to_firstn (A : Type) (n : Z) (xs : list A) :
  py_slice_to n xs = firstn (kept_by_slice n (List.length xs)) xs
  /\ List.length (py_slice_to n xs) = kept_by_slice n (List.length xs).
Proof.
  unfold py_slice_to, kept_by_slice. destruct (0 <=? n)%Z.
  - assert (H : firstn (Z.to_nat n) xs
                = firstn (Nat.min (Z.to_nat n) (List.length xs)) xs).
    { destruct (Nat.le_ge_cases (Z.to_nat n) (List.length xs)) as [Hle | Hge].
      - rewrite Nat.min_l by exact Hle. reflexivity.
      - rewrite Nat.min_r by exact Hge.
        rewrite !firstn_all2 by lia. reflexivity. }
    split; [exact H|]. rewrite length_firstn. reflexivity.
  - split; [reflexivity|]. rewrite length_firstn. lia.
Qed.

Lemma confidences_wire_nil :
  confidences_wire [] = Raise (IndexError "list index out of range").
Proof. reflexivity. Qed.

(** For any [num_top_classes] (zero, negative or beyond the mapping), a
    mapping whose scores are finite numbers (bools, ints, floats that are
    neither NaN nor infinite), given to the "confidences" or "auto" type,
    is sorted and cut as [sorted_pred[:num_top_classes]]: when the cut
    keeps nothing the call raises IndexError, otherwise it returns the
    first maximal key and exactly the kept prefix of the stable descending
    sort. *)
Theorem Label_postprocess_any_top
    (py_str : pyval -> string) (self : Label) (m : list (pyval * pyval)) :
  Label_type self = "confidences" \/ Label_type self = "auto" ->
  numeric_scores m ->
  let kept := shown_count (num_top_classes self) (List.length m) in
  exists sorted_pred,
    stable_descending_sort m sorted_pred
    /\ (kept = 0 ->
        Label_postprocess py_str self (PDict m)
        = Raise (IndexError "list index out of range"))
    /\ (0 < kept ->
        exists top,
          max_entry m = Some top
          /\ Label_postprocess py_str self (PDict m)
             = Ok (PDict [(LABEL_KEY, fst top);
                          (CONFIDENCES_KEY,
                           PList (map confidence_entry (firstn kept sorted_pred)))])
          /\ List.length (firstn kept sorted_pred) = kept).
Proof.
  intros Htype Hnum. cbv zeta.
  destruct (label_sort Hnum) as (out & Hout & Hsort).
  exists out. split; [exact Hsort|].
  assert (Hlen : List.length out = List.length m).
  { symmetry. apply Permutation_length. apply Hsort. }
  assert (Hrun : Label_postprocess py_str self (PDict m)
                 = confidences_wire
                     (firstn (shown_count (num_top_classes self) (List.length m)) out)).
  { rewrite (Label_mapping_branch py_str self m Htype), Hout.
    cbv beta iota zeta delta [bind confidences_wire]. unfold shown_count.
    destruct (num_top_classes self) as [n|].
    - rewrite (proj1 (py_slice_to_firstn n out)), Hlen. reflexivity.
    - rewrite <- Hlen, firstn_all. reflexivity. }
  assert (Hk : shown_count (num_top_classes self) (List.length m) <= List.length m).
  { unfold shown_count, kept_by_slice. destruct (num_top_classes self) as [n|]; [|lia].
    destruct (0 <=? n)%Z; lia. }
  split.
  - intro H0. rewrite Hrun, H0. reflexivity.
  - intro Hpos. rewrite Hrun. destruct out as [|h t]; [simpl in Hlen; lia|].
    exists h. split; [exact (sorted_head_is_max Hsort)|]. split.
    + destruct (shown_count (num_top_classes self) (List.length m)) as [|k];
        [lia|reflexivity].
    + rewrite length_firstn, Hlen. lia.
Qed.

(** Three categories cut with [num_top_classes = -1]: the last one goes. *)
Lemma Label_postprocess_any_top_witness :
  exists sorted_pred,
    stable_descending_sort
      [(PStr "cat", PFloat (2 # 10)); (PStr "dog", PFloat (7 # 10));
       (PStr "bird", PFloat (1 # 10))] sorted_pred
    /\ (2 = 0 ->
        Label_postprocess scalar_str
          {| num_top_classes := Some (-1)%Z; Label_type := "confidences" |}
          (PDict [(PStr "cat", PFloat (2 # 10)); (PStr "dog", PFloat (7 # 10));
                  (PStr "bird", PFloat (1 # 10))])
        = Raise (IndexError "list index out of range"))
    /\ (0 < 2 ->
        exists top,
          max_entry [(PStr "cat", PFloat (2 # 10)); (PStr "dog", PFloat (7 # 10));
                     (PStr "bird", PFloat (1 # 10))] = Some top
          /\ Label_postprocess scalar_str
               {| num_top_classes := Some (-1)%Z; Label_type := "confidences" |}
               (PDict [(PStr "cat", PFloat (2 # 10)); (PStr "dog", PFloat (7 # 10));
                       (PStr "bird", PFloat (1 # 10))])
             = Ok (PDict [(LABEL_KEY, fst top);
                          (CONFIDENCES_KEY,
                           PList (map confidence_entry (firstn 2 sorted_pred)))])
          /\ List.length (firstn 2 sorted_pred) = 2).
Proof.
  refine (@Label_postprocess_any_top scalar_str
            {| num_top_classes := Some (-1)%Z; Label_type := "confidences" |}
            [(PStr "cat", PFloat (2 # 10)); (PStr "dog", PFloat (7 # 10));
             (PStr "bird", PFloat (1 # 10))] _ _).
  - left. reflexivity.
  - repeat constructor.
Defined.

(** ** [sorted] keeps the number of elements, whatever the comparison *)

Section SortedLength.
Variable A : Type.
Variable lt : A -> A -> result bool.

Lemma insort_length (x : A) (l r : list A) :
  insort lt x l = Ok r -> List.length r = S (List.length l).
Proof.
  revert r. induction l as [|y l IH]; intros r H; simpl in H.
  - injection H as <-. reflexivity.
  - destruct (lt x y) as [b|e]; simpl in H; [|discriminate].
    destruct b.
    + injection H as <-. reflexivity.
    + destruct (insort lt x l) as [r'|e] eqn:E; simpl in H; [|discriminate].
      injection H as <-. simpl. rewrite (IH r' eq_refl). reflexivity.
Qed.

Lemma fold_insort_raise (l : list A) (e : exn) :
  fold_left (fun acc x => a <- acc ;; insort lt x a) l (Raise e) = Raise e.
Proof.
  induction l as [|x l IH]; simpl; [reflexivity|exact IH].
Qed.

Lemma fold_insort_length (l acc r : list A) :
  fold_left (fun acc x => a <- acc ;; insort lt x a) l (Ok acc) = Ok r ->
  List.length r = List.length acc + List.length l.
Proof.
  revert acc. induction l as [|x l IH]; intros acc H; simpl in H.
  - injection H as <-. simpl. lia.
  - destruct (insort lt x acc) as [acc'|e] eqn:E.
    + rewrite (IH acc' H), (insort_length _ _ E). simpl. lia.
    + rewrite fold_insort_raise in H. discriminate.
Qed.

Lemma py_sorted_length (reverse : bool) (l out : list A) :
  py_sorted lt reverse l = Ok out -> List.length out = List.length l.
Proof.
  unfold py_sorted, sort_ascending. destruct reverse; intro H.
  - destruct (fold_left _ (rev l) (Ok [])) as [r|e] eqn:E; simpl in H; [|discriminate].
    injection H as <-. rewrite length_rev, (fold_insort_length _ _ E), length_rev.
    reflexivity.
  - rewrite (fold_insort_length _ _ H). reflexivity.
Qed.
End SortedLength.

(** A [num_top_classes] that is at least the number of categories changes
    nothing: the call returns, or raises, exactly as with no cap.  This
    holds for every type and every mapping, numeric or not. *)
Theorem Label_postprocess_large_top
    (py_str : pyval -> string) (type : string) (m : list (pyval * pyval)) (n : Z) :
  (Z.of_nat (List.length m) <= n)%Z ->
  Label_postprocess py_str {| num_top_classes := Some n; Label_type := type |} (PDict m)
  = Label_postprocess py_str {| num_top_classes := None; Label_type := type |} (PDict m).
Proof.
  intro Hn. unfold Label_postprocess. cbn [Label_type num_top_classes py_items bind].
  destruct ((type =? "label") || (type =? "auto") && (is_str (PDict m) || is_number (PDict m)));
    [reflexivity|].
  destruct ((type =? "confidences") || (type =? "auto") && is_dict (PDict m));
    [|reflexivity].
  destruct (py_sorted (lt_by_key itemgetter1) true m) as [out|e] eqn:E; [|reflexivity].
  cbv beta iota zeta delta [bind].
  replace (py_slice_to n out) with out; [reflexivity|].
  pose proof (py_sorted_length _ _ _ E) as Hlen.
  unfold py_slice_to. replace (0 <=? n)%Z with true by (symmetry; apply Z.leb_le; lia).
  symmetry. apply firstn_all2. lia.
Qed.

(** A cap of 5 on three categories. *)
Lemma Label_postprocess_large_top_witness :
  Label_postprocess scalar_str {| num_top_classes := Some 5%Z; Label_type := "auto" |}
    (PDict [(PStr "cat", PFloat (2 # 10)); (PStr "dog", PFloat (7 # 10));
            (PStr "bird", PFloat (1 # 10))])
  = Label_postprocess scalar_str {| num_top_classes := None; Label_type := "auto" |}
      (PDict [(PStr "cat", PFloat (2 # 10)); (PStr "dog", PFloat (7 # 10));
              (PStr "bird", PFloat (1 # 10))]).
Proof.
  apply (@Label_postprocess_large_top scalar_str "auto"
           [(PStr "cat", PFloat (2 # 10)); (PStr "dog", PFloat (7 # 10));
            (PStr "bird", PFloat (1 # 10))] 5%Z).
  simpl. lia.
Defined.

(** ** Label.postprocess and the order of the mapping *)

(** Two descending lists with the same entries, no two of them of the same
    score, are the same list. *)
Lemma descending_unique (l1 l2 : list (pyval * pyval)) :
  Permutation l1 l2 -> descending l1 -> descending l2 -> distinct_scores l1 ->
  l1 = l2.
Proof.
  revert l2. induction l1 as [|a t1 IH]; intros l2 Hperm H1 H2 Hd.
  - apply Permutation_nil in Hperm. symmetry. exact Hperm.
  - destruct l2 as [|b t2].
    { apply Permutation_sym, Permutation_nil in Hperm. discriminate. }
    inversion H1 as [|? ? Hs1 Hall1]; subst.
    inversion H2 as [|? ? Hs2 Hall2]; subst.
    rewrite Forall_forall in Hall1, Hall2.
    assert (Hab : a = b).
    { assert (Hina : In a (b :: t2))
        by (apply (Permutation_in _ Hperm); left; reflexivity).
      assert (Hinb : In b (a :: t1))
        by (apply (Permutation_in _ (Permutation_sym Hperm)); left; reflexivity).
      apply Hd; [left; reflexivity|exact Hinb|].
      apply Qle_antisym.
      - destruct Hina as [<-|Hina]; [apply Qle_refl|apply Hall2; exact Hina].
      - destruct Hinb as [<-|Hinb]; [apply Qle_refl|apply Hall1; exact Hinb]. }
    subst b. f_equal. apply IH.
    + eapply Permutation_cons_inv. exact Hperm.
    + exact Hs1.
    + exact Hs2.
    + intros x y Hx Hy. apply Hd; right; assumption.
Qed.

(** When the scores are finite numbers (bools, ints, floats that are
    neither NaN nor infinite) and no two categories have the same score,
    the wire value does not depend on the order in which the mapping holds
    them. *)
Theorem Label_postprocess_order_independent
    (py_str : pyval -> string) (self : Label) (m1 m2 : list (pyval * pyval)) :
  Label_type self = "confidences" \/ Label_type self = "auto" ->
  numeric_scores m1 ->
  distinct_scores m1 ->
  Permutation m1 m2 ->
  Label_postprocess py_str self (PDict m1) = Label_postprocess py_str self (PDict m2).
Proof.
  intros Htype Hnum1 Hd Hperm.
  assert (Hnum2 : numeric_scores m2).
  { unfold numeric_scores in *. rewrite Forall_forall in *. intros x Hx.
    apply Hnum1. apply (Permutation_in _ (Permutation_sym Hperm)). exact Hx. }
  destruct (label_sort Hnum1) as (out1 & Hout1 & Hp1 & Hs1 & _).
  destruct (label_sort Hnum2) as (out2 & Hout2 & Hp2 & Hs2 & _).
  assert (Heq : out1 = out2).
  { apply descending_unique; try assumption.
    - eapply Permutation_trans; [apply Permutation_sym; exact Hp1|].
      eapply Permutation_trans; [exact Hperm|exact Hp2].
    - intros a b Ha Hb. apply Hd; apply (Permutation_in _ (Permutation_sym Hp1));
        assumption. }
  rewrite !(Label_mapping_branch py_str self _ Htype), Hout1, Hout2, Heq.
  reflexivity.
Qed.

(** The spec's three categories, held in two different orders. *)
Lemma Label_postprocess_order_independent_witness :
  Label_postprocess scalar_str {| num_top_classes := Some 2%Z; Label_type := "auto" |}
    (PDict [(PStr "cat", PFloat (2 # 10)); (PStr "dog", PFloat (7 # 10));
            (PStr "bird", PFloat (1 # 10))])
  = Label_postprocess scalar_str {| num_top_classes := Some 2%Z; Label_type := "auto" |}
      (PDict [(PStr "dog", PFloat (7 # 10)); (PStr "cat", PFloat (2 # 10));
              (PStr "bird", PFloat (1 # 10))]).
Proof.
  apply (@Label_postprocess_order_independent scalar_str
           {| num_top_classes := Some 2%Z; Label_type := "auto" |}
           [(PStr "cat", PFloat (2 # 10)); (PStr "dog", PFloat (7 # 10));
            (PStr "bird", PFloat (1 # 10))]
           [(PStr "dog", PFloat (7 # 10)); (PStr "cat", PFloat (2 # 10));
            (PStr "bird", PFloat (1 # 10))]).
  - right. reflexivity.
  - repeat constructor.
  - intros a b Ha Hb Hs. simpl in Ha, Hb.
    destruct Ha as [<-|[<-|[<-|[]]]]; destruct Hb as [<-|[<-|[<-|[]]]];
      try reflexivity; vm_compute in Hs; discriminate Hs.
  - apply perm_swap.
Defined.

(** With the explicit type "confidences" the value is not checked to be a
    mapping: a value without [items] ends in AttributeError, not in the
    ValueError that names the accepted shapes. *)
Theorem Label_confidences_on_non_mapping
    (py_str : pyval -> string) (top : option Z) (y : pyval) :
  is_dict y = false ->
  is_dataframe y = false ->
  Label_postprocess py_str {| num_top_classes := top; Label_type := "confidences" |} y
  = Raise (AttributeError "object has no attribute 'items'").
Proof.
  intros Hd Hf. destruct y; try discriminate; reflexivity.
Qed.

(** [Label(type="confidences").postprocess("cat")]. *)
Lemma Label_confidences_on_non_mapping_witness :
  Label_postprocess scalar_str
    {| num_top_classes := None; Label_type := "confidences" |} (PStr "cat")
  = Raise (AttributeError "object has no attribute 'items'").
Proof.
  exact (@Label_confidences_on_non_mapping scalar_str None (PStr "cat") eq_refl eq_refl).
Defined.

(** ** Dataframe.postprocess as a normalisation *)

(** On a list, with the type "array" or "auto", the emitted table is never
    empty (the empty list becomes one empty row), and emitting it again
    changes nothing: the normalisation is idempotent. *)
Theorem Dataframe_postprocess_idempotent
    (headers : pyval) (type : string) (l : list pyval) :
  type = "array" \/ type = "auto" ->
  exists table,
    Dataframe_postprocess {| Dataframe_headers := headers; Dataframe_type := type |}
      (PList l)
    = Ok (PDict [(PStr "data", PList table)])
    /\ table <> []
    /\ Dataframe_postprocess {| Dataframe_headers := headers; Dataframe_type := type |}
         (PList table)
       = Ok (PDict [(PStr "data", PList table)]).
Proof.
  intro Htype. rewrite (Dataframe_list_run headers l Htype).
  destruct l as [|x rest].
  - exists [PList []]. split; [reflexivity|]. split; [discriminate|].
    rewrite (Dataframe_list_run headers _ Htype). reflexivity.
  - destruct (is_list x) eqn:Hx.
    + exists (x :: rest). split; [reflexivity|]. split; [discriminate|].
      rewrite (Dataframe_list_run headers _ Htype), Hx. reflexivity.
    + exists [PList (x :: rest)]. split; [reflexivity|]. split; [discriminate|].
      rewrite (Dataframe_list_run headers _ Htype). reflexivity.
Qed.

(** The empty list. *)
Lemma Dataframe_postprocess_idempotent_witness :
  exists table,
    Dataframe_postprocess {| Dataframe_headers := PNone; Dataframe_type := "auto" |}
      (PList [])
    = Ok (PDict [(PStr "data", PList table)])
    /\ table <> []
    /\ Dataframe_postprocess {| Dataframe_headers := PNone; Dataframe_type := "auto" |}
         (PList table)
       = Ok (PDict [(PStr "data", PList table)]).
Proof.
  exact (@Dataframe_postprocess_idempotent PNone "auto" [] (or_intror eq_refl)).
Defined.

(** An explicit type is not checked against the value.  A list, which
    "auto" accepts, ends in AttributeError under "pandas" (no [columns])
    and under "numpy" (no [tolist]); and an ndarray of dimension zero,
    whose [tolist()] is a scalar, ends in TypeError at [len]. *)
Theorem Dataframe_explicit_type_mismatch (headers : pyval) (l : list pyval) (z : Z) :
  Dataframe_postprocess {| Dataframe_headers := headers; Dataframe_type := "pandas" |}
    (PList l)
  = Raise (AttributeError "object has no attribute 'columns'")
  /\ Dataframe_postprocess {| Dataframe_headers := headers; Dataframe_type := "numpy" |}
       (PList l)
     = Raise (AttributeError "object has no attribute 'tolist'")
  /\ Dataframe_postprocess {| Dataframe_headers := headers; Dataframe_type := "auto" |}
       (PNdarray (PInt z))
     = Raise (TypeError "object has no len()")
  /\ exists wire,
       Dataframe_postprocess {| Dataframe_headers := headers; Dataframe_type := "auto" |}
         (PList l) = Ok wire.
Proof.
  split; [reflexivity|]. split; [reflexivity|]. split; [reflexivity|].
  eexists. apply (Dataframe_list_run headers l (or_intror eq_refl)).
Qed.

(** ** KeyValues.postprocess *)

(** What [KeyValues.postprocess] returns it returns unchanged when given
    it again, and two mappings with the same wire value are the same
    mapping: no entry is lost or reordered. *)
Theorem KeyValues_postprocess_idempotent_injective :
  (forall y v, KeyValues_postprocess y = Ok v -> KeyValues_postprocess v = Ok v)
  /\ (forall d1 d2,
        KeyValues_postprocess (PDict d1) = KeyValues_postprocess (PDict d2) -> d1 = d2).
Proof.
  split.
  - intros y v H. destruct y; simpl in H; try discriminate; injection H as <-;
      reflexivity.
  - intros d1 d2 H. simpl in H. injection H as H. unfold items_list in H.
    revert d2 H. induction d1 as [|[k1 v1] d1 IH]; intros [|[k2 v2] d2] H;
      simpl in H; try discriminate; [reflexivity|].
    injection H as -> -> H. f_equal. apply IH. exact H.
Qed.

(** A mapping of two entries. *)
Lemma KeyValues_postprocess_idempotent_injective_witness :
  KeyValues_postprocess (PList [PTuple [PStr "a"; PInt 1]; PTuple [PStr "b"; PInt 2]])
  = Ok (PList [PTuple [PStr "a"; PInt 1]; PTuple [PStr "b"; PInt 2]])
  /\ [(PStr "a", PInt 1)] = [(PStr "a", PInt 1)].
Proof.
  split.
  - exact (proj1 KeyValues_postprocess_idempotent_injective
             (PDict [(PStr "a", PInt 1); (PStr "b", PInt 2)]) _ eq_refl).
  - exact (proj2 KeyValues_postprocess_idempotent_injective
             [(PStr "a", PInt 1)] [(PStr "a", PInt 1)] eq_refl).
Defined.

(** ** JSON.postprocess on strings *)







(** ** Image.postprocess and Dataframe.postprocess under "auto" *)

(** Under "auto", a value that none of the [isinstance] tests accepts
    leaves the local [dtype] unbound: Image.postprocess (no ndarray, PIL
    image, str or module) and Dataframe.postprocess (no DataFrame, ndarray
    or list) end in UnboundLocalError, before any encoder is called and
    without touching the world. *)
Theorem auto_dtype_unbound
    (encode_array encode_plot np_array : pyval -> result pyval)
    (encode_file : world -> pyval -> option string -> option string
                   -> option bool -> result pyval)
    (headers y : pyval) (w : world) :
  (is_ndarray y = false -> is_pil_image y = false -> is_str y = false ->
   is_module y = false ->
   Image_postprocess encode_array encode_file encode_plot np_array
     {| Image_type := "auto" |} y w
   = (Raise (UnboundLocalError "dtype"), w))
  /\ (is_dataframe y = false -> is_ndarray y = false -> is_list y = false ->
      Dataframe_postprocess {| Dataframe_headers := headers; Dataframe_type := "auto" |} y
      = Raise (UnboundLocalError "dtype")).
Proof.
  split.
  - intros H1 H2 H3 H4.
    unfold Image_postprocess, Image_dtype, bindM, liftM. simpl.
    rewrite H1, H2, H3, H4. reflexivity.
  - intros H1 H2 H3.
    unfold Dataframe_postprocess, Dataframe_dtype. simpl.
    rewrite H1, H2, H3. reflexivity.
Qed.

(** A tuple given to both components. *)
Lemma auto_dtype_unbound_witness :
  Image_postprocess demo_encode_array demo_encode_file demo_encode_array demo_np_array
    {| Image_type := "auto" |} (PTuple [PInt 1; PInt 2]) demo_world
  = (Raise (UnboundLocalError "dtype"), demo_world)
  /\ Dataframe_postprocess {| Dataframe_headers := PNone; Dataframe_type := "auto" |}
       (PTuple [PInt 1; PInt 2])
     = Raise (UnboundLocalError "dtype").
Proof.
  pose proof (auto_dtype_unbound demo_encode_array demo_encode_array demo_np_array
                demo_encode_file PNone (PTuple [PInt 1; PInt 2]) demo_world) as [HI HD].
  split; [apply HI; reflexivity|apply HD; reflexivity].
Defined.

(** The deprecated [plot] flag of [Image.__init__] overrides the declared
    type: whatever type string is given with it, an unknown one included,
    postprocess renders the value as a plot; without the flag the declared
    type is kept. *)
Theorem Image_plot_flag_overrides_type
    (encode_array encode_plot np_array : pyval -> result pyval)
    (encode_file : world -> pyval -> option string -> option string
                   -> option bool -> result pyval)
    (type : string) (y : pyval) (w : world) :
  Image_postprocess encode_array encode_file encode_plot np_array
    (Image_init type true) y w
  = (encode_plot y, w)
  /\ Image_postprocess encode_array encode_file encode_plot np_array
       (Image_init type false) y
     = Image_postprocess encode_array encode_file encode_plot np_array
         {| Image_type := type |} y.
Proof.
  split; reflexivity.
Qed.

(** ** What the calls do to the world *)

(** [Image.postprocess] never changes the world, and neither does
    [Audio.postprocess] off the numpy path (the type "file", an unknown
    type, or "auto" with a value that is no tuple): no temporary file is
    made. *)
Theorem postprocess_leaves_world
    (encode_array encode_plot np_array : pyval -> result pyval)
    (encode_file : world -> pyval -> option string -> option string
                   -> option bool -> result pyval)
    (wav_encode : pyval -> pyval -> result content)
    (y : pyval) (w : world) :
  (forall self,
     snd (Image_postprocess encode_array encode_file encode_plot np_array self y w) = w)
  /\ (forall self,
        Audio_type self <> "numpy" ->
        (Audio_type self = "auto" -> is_tuple y = false) ->
        snd (Audio_postprocess encode_file wav_encode self y w) = w).
Proof.
  split.
  - intro self. unfold Image_postprocess, bindM, liftM.
    destruct (read_local "dtype" (Image_dtype self y)) as [dtype|e]; [|reflexivity].
    destruct ((dtype =? "numpy") || (dtype =? "pil")).
    + destruct (if dtype =? "pil" then np_array y else Ok y); reflexivity.
    + destruct (dtype =? "file"); [reflexivity|].
      destruct (dtype =? "plot"); reflexivity.
  - intros self Hn Ha. unfold Audio_postprocess, bindM, liftM, retM.
    rewrite (eqb_ne Hn). simpl.
    destruct (Audio_type self =? "auto") eqn:E.
    + apply String.eqb_eq in E. rewrite (Ha E). simpl.
      rewrite orb_true_r. reflexivity.
    + simpl. destruct (Audio_type self =? "file"); reflexivity.
Qed.

(** [Audio(type="file").postprocess("clip.wav")]. *)
Lemma postprocess_leaves_world_witness :
  snd (Audio_postprocess demo_encode_file demo_wav_encode {| Audio_type := "file" |}
         (PStr "clip.wav")
         demo_world) = demo_world.
Proof.
  apply (proj2 (postprocess_leaves_world demo_encode_array demo_encode_array
                  demo_np_array demo_encode_file demo_wav_encode (PStr "clip.wav")
                  demo_world)).
  - discriminate.
  - discriminate.
Defined.

(** On the numpy path, given a pair that the WAV writer accepts, the
    base64 encoder is called on the name of the temporary file, in a world
    where that file holds the WAV of the pair and every other path is as
    it was; the call returns what the encoder returns, with the file gone,
    or raises what the encoder raises, with the file still there.  Given a
    pair that the WAV writer refuses, the call raises the writer's
    exception: the encoder's result plays no part. *)
Theorem Audio_numpy_encodes_written_wav
    (encode_file : world -> pyval -> option string -> option string
                   -> option bool -> result pyval)
    (wav_encode : pyval -> pyval -> result content)
    (self : Audio) (rate data : pyval) (rest : list pyval) (w : world) :
  Audio_type self = "numpy" \/ Audio_type self = "auto" ->
  let file := temp_name (temp_seq w) in
  let run := Audio_postprocess encode_file wav_encode self
               (PTuple (rate :: data :: rest)) w in
  (forall wav, wav_encode rate data = Ok wav ->
     exists w1,
       read_file file (files w1) = Some wav
       /\ (forall p, p <> file -> read_file p (files w1) = read_file p (files w))
       /\ dirs w1 = dirs w /\ clock w1 = clock w
       /\ run = match encode_file w1 (PStr file) (Some "audio") (Some "wav") None with
                | Ok wire => (Ok wire, close_temp file w1)
                | Raise e => (Raise e, w1)
                end)
  /\ (forall e, wav_encode rate data = Raise e -> fst run = Raise e).
Proof.
  intro Htype. cbv zeta.
  assert (Hpath : Audio_type self = "numpy"
                  \/ (Audio_type self = "auto"
                      /\ is_tuple (PTuple (rate :: data :: rest)) = true)).
  { destruct Htype as [Ht | Ht]; [left; exact Ht | right; split; [exact Ht | reflexivity]]. }
  rewrite (@Audio_numpy_path encode_file wav_encode self _ w Hpath).
  unfold until_frame_exit, Audio_write_wav, bindM, liftM, wavfile_write, Audio_encode.
  cbn [py_getitem0 py_getitem1 py_first NamedTemporaryFile snd].
  split.
  - intros wav Hwav. rewrite Hwav.
    exists (write_file (temp_name (temp_seq w)) wav (snd (NamedTemporaryFile w))).
    cbn [NamedTemporaryFile snd].
    split; [|split; [|split; [|split]]].
    + cbn [files write_file read_file]. rewrite String.eqb_refl. reflexivity.
    + intros p Hp. cbn [files write_file read_file].
      rewrite !(eqb_ne (not_eq_sym Hp)). reflexivity.
    + reflexivity.
    + reflexivity.
    + destruct (encode_file _ _ _ _ _); reflexivity.
  - intros e He. rewrite He. reflexivity.
Qed.

(** Two samples at 44100 Hz: the writer accepts the pair, the encoder
    succeeds, and the call returns with the temporary file gone. *)
Lemma Audio_numpy_encodes_written_wav_witness :
  exists w1,
    read_file "/tmp/tmp0" (files w1)
    = Some (Wav (PInt 44100) (PNdarray (PList [PInt 0; PInt 1])))
    /\ (forall p, p <> "/tmp/tmp0" ->
          read_file p (files w1) = read_file p (files demo_world))
    /\ dirs w1 = dirs demo_world /\ clock w1 = clock demo_world
    /\ Audio_postprocess demo_encode_file demo_wav_encode {| Audio_type := "auto" |}
         (PTuple [PInt 44100; PNdarray (PList [PInt 0; PInt 1])]) demo_world
       = match demo_encode_file w1 (PStr "/tmp/tmp0") (Some "audio") (Some "wav") None with
         | Ok wire => (Ok wire, close_temp "/tmp/tmp0" w1)
         | Raise e => (Raise e, w1)
         end.
Proof.
  exact (proj1 (@Audio_numpy_encodes_written_wav demo_encode_file demo_wav_encode
                  {| Audio_type := "auto" |} (PInt 44100)
                  (PNdarray (PList [PInt 0; PInt 1])) [] demo_world
                  (or_intror eq_refl))
           (Wav (PInt 44100) (PNdarray (PList [PInt 0; PInt 1]))) eq_refl).
Defined.

(** ** Image.rebuild and the file system *)






(** ** File.postprocess *)

Lemma has_slash_basename (s : string) : has_slash (basename s) = false.
Proof.
  induction s as [|c s IH]; [reflexivity|].
  cbn [basename]. destruct (has_slash (String c s)) eqn:E; [exact IH|exact E].
Qed.

Lemma basename_no_slash (s : string) : has_slash s = false -> basename s = s.
Proof.
  destruct s as [|c s]; [reflexivity|]. intro H. cbn [basename]. rewrite H. reflexivity.
Qed.

(** The basename of [dir/name] is [name] when [name] has no slash. *)
Lemma basename_join (dir name : string) :
  has_slash name = false -> basename (dir ++ "/" ++ name) = name.
Proof.
  intro H. change ("/" ++ name)%string with (String "/" name).
  induction dir as [|c dir IH].
  - cbn [append basename has_slash]. rewrite Ascii.eqb_refl. simpl.
    apply basename_no_slash. exact H.
  - cbn [append basename].
    replace (has_slash (String c (dir ++ String "/" name))) with true; [exact IH|].
    symmetry. cbn [has_slash]. rewrite has_slash_app. simpl.
    rewrite !orb_true_r. reflexivity.
Qed.

(** [File.postprocess] on a str path.  The size is asked for before the
    file is encoded, so an error of [getsize] (a missing file) surfaces as
    it is and the encoder is not reached; an error of the encoder surfaces
    as it is; otherwise the wire value holds the basename of the path,
    which has no slash and is [name] for a path [dir/name], the size and
    the headerless encoding. *)
Theorem File_postprocess_path
    (getsize : world -> pyval -> result Z)
    (encode_file : world -> pyval -> option string -> option string
                   -> option bool -> result pyval)
    (p : string) (w : world) :
  (forall e, getsize w (PStr p) = Raise e ->
     File_postprocess getsize encode_file (PStr p) w = Raise e)
  /\ (forall n e, getsize w (PStr p) = Ok n ->
        encode_file w (PStr p) None None (Some false) = Raise e ->
        File_postprocess getsize encode_file (PStr p) w = Raise e)
  /\ (forall n data, getsize w (PStr p) = Ok n ->
        encode_file w (PStr p) None None (Some false) = Ok data ->
        File_postprocess getsize encode_file (PStr p) w
        = Ok (PDict [(PStr "name", PStr (basename p)); (PStr "size", PInt n);
                     (PStr "data", data)])
        /\ has_slash (basename p) = false)
  /\ (forall dir name, p = (dir ++ "/" ++ name)%string -> has_slash name = false ->
        basename p = name).
Proof.
  unfold File_postprocess. cbn [os_path_basename bind].
  split; [|split; [|split]].
  - intros e H. rewrite H. reflexivity.
  - intros n e Hn He. rewrite Hn, He. reflexivity.
  - intros n data Hn Hd. rewrite Hn, Hd. split; [reflexivity|apply has_slash_basename].
  - intros dir name -> H. apply basename_join. exact H.
Qed.

(** The file "clip.wav" of the demonstration world, and a missing one. *)
Lemma File_postprocess_path_witness :
  File_postprocess demo_getsize demo_encode_file_raw (PStr "clip.wav") demo_world
  = Ok (PDict [(PStr "name", PStr "clip.wav"); (PStr "size", PInt 4);
               (PStr "data", PStr "UklGRg==")])
  /\ File_postprocess demo_getsize demo_encode_file_raw (PStr "gone.wav") demo_world
     = Raise (FileNotFoundError "gone.wav")
  /\ basename "out/clip.wav" = "clip.wav".
Proof.
  split; [|split].
  - exact (proj1 (proj1 (proj2 (proj2 (File_postprocess_path demo_getsize
             demo_encode_file_raw "clip.wav" demo_world))) 4%Z _ eq_refl eq_refl)).
  - exact (proj1 (File_postprocess_path demo_getsize demo_encode_file_raw "gone.wav"
                    demo_world) _ eq_refl).
  - exact (proj2 (proj2 (proj2 (File_postprocess_path demo_getsize demo_encode_file_raw
             "out/clip.wav" demo_world))) "out" "clip.wav" eq_refl eq_refl).
Defined.

(** None, a bool, an int, a float, a list, a tuple, a dict, an ndarray,
    a PIL image, a module and a DataFrame are refused by
    [os.path.basename], with a TypeError, before the file system is asked
    anything.  (An object with [__fspath__], such as a [pathlib.Path], is
    a path to [os.path.basename] and is not among these values.) *)
Theorem File_postprocess_non_path
    (getsize : world -> pyval -> result Z)
    (encode_file : world -> pyval -> option string -> option string
                   -> option bool -> result pyval)
    (y : pyval) (w : world) :
  not_a_path y = true ->
  File_postprocess getsize encode_file y w
  = Raise (TypeError "expected str, bytes or os.PathLike object").
Proof.
  intro Hy. destruct y; try reflexivity; discriminate Hy.
Qed.

(** [File().postprocess(None)]. *)
Lemma File_postprocess_non_path_witness :
  File_postprocess demo_getsize demo_encode_file PNone demo_world
  = Raise (TypeError "expected str, bytes or os.PathLike object").
Proof.
  exact (@File_postprocess_non_path demo_getsize demo_encode_file PNone demo_world
           eq_refl).
Defined.

(** ** SimpleImage *)

Lemma split_slash_cons (s : string) : exists piece pieces, split_slash s = piece :: pieces.
Proof.
  destruct s as [|c s]; simpl; [eauto|].
  destruct (Ascii.eqb c "/"); [eauto|].
  destruct (split_slash s); eauto.
Qed.

Lemma split_slash_join (a b : string) :
  split_slash (a ++ String "/" b) = split_slash a ++ split_slash b.
Proof.
  induction a as [|c a IH].
  - reflexivity.
  - cbn [append split_slash]. rewrite IH.
    destruct (Ascii.eqb c "/"); [reflexivity|].
    destruct (split_slash_cons a) as (piece & pieces & ->). reflexivity.
Qed.

Lemma split_slash_no_slash (s : string) : has_slash s = false -> split_slash s = [s].
Proof.
  induction s as [|c s IH]; [reflexivity|].
  cbn [has_slash split_slash]. intro H. apply orb_false_iff in H.
  destruct H as [Hc Hs]. rewrite Hc, (IH Hs). reflexivity.
Qed.

Lemma split_slash_pieces (s : string) :
  Forall (fun piece => has_slash piece = false) (split_slash s).
Proof.
  induction s as [|c s IH]; [repeat constructor|].
  cbn [split_slash]. destruct (Ascii.eqb c "/") eqn:Hc.
  - constructor; [reflexivity|exact IH].
  - destruct (split_slash s) as [|piece pieces]; [repeat constructor; simpl; rewrite Hc; reflexivity|].
    inversion IH as [|? ? Hp Hps]; subst.
    constructor; [|exact Hps]. simpl. rewrite Hc, Hp. reflexivity.
Qed.

Lemma path_parts_join (a b : string) :
  path_parts (a ++ String "/" b) = path_parts a ++ path_parts b.
Proof.
  unfold path_parts. rewrite split_slash_join. apply filter_app.
Qed.

Lemma last_no_slash (l : list string) :
  Forall (fun piece => has_slash piece = false) l ->
  has_slash (last l EmptyString) = false.
Proof.
  induction 1 as [|x l Hx Hl IH]; [reflexivity|].
  destruct l as [|y l]; [exact Hx|exact IH].
Qed.

Lemma Path_name_no_slash (s : string) : has_slash (Path_name s) = false.
Proof.
  unfold Path_name, path_parts. apply last_no_slash.
  pose proof (split_slash_pieces s) as H. rewrite Forall_forall in *.
  intros x Hx. apply filter_In in Hx. apply H. apply Hx.
Qed.

(** [SimpleImage]: preprocess undoes postprocess on every value; the
    [orig_name] that postprocess sets never holds a slash; for a path
    [dir/name] whose [name] is a plain file name it is [name]; and a
    trailing slash does not change it. *)
Theorem SimpleImage_round_trip :
  (forall value, SimpleImage_preprocess (SimpleImage_postprocess value) = value)
  /\ (forall v,
        exists data,
          SimpleImage_postprocess (Some v) = Some data
          /\ FileData_path data = v
          /\ has_slash (FileData_orig_name data) = false)
  /\ (forall dir name,
        has_slash name = false -> name <> "" -> name <> "." ->
        SimpleImage_postprocess (Some (dir ++ "/" ++ name)%string)
        = Some {| FileData_path := (dir ++ "/" ++ name)%string;
                  FileData_orig_name := name |})
  /\ (forall v, Path_name (v ++ "/") = Path_name v).
Proof.
  split; [|split; [|split]].
  - intros [v|]; reflexivity.
  - intro v. eexists. split; [reflexivity|]. split; [reflexivity|].
    apply Path_name_no_slash.
  - intros dir name Hs He Hd. unfold SimpleImage_postprocess. f_equal. f_equal.
    change (dir ++ "/" ++ name)%string with (dir ++ String "/" name)%string.
    unfold Path_name. rewrite path_parts_join.
    assert (Hparts : path_parts name = [name]).
    { unfold path_parts. rewrite (split_slash_no_slash _ Hs). cbn [filter].
      rewrite (eqb_ne He), (eqb_ne Hd). reflexivity. }
    rewrite Hparts. apply last_last.
  - intro v. change (v ++ "/")%string with (v ++ String "/" EmptyString)%string.
    unfold Path_name. rewrite path_parts_join.
    change (path_parts EmptyString) with (@nil string). rewrite app_nil_r. reflexivity.
Qed.

(** The component's example value, an URL that ends in [bus.png]. *)
Lemma SimpleImage_round_trip_witness :
  SimpleImage_postprocess
    (Some ("https://raw.githubusercontent.com/gradio-app/gradio/main/test/test_files"
           ++ "/" ++ "bus.png")%string)
  = Some {| FileData_path :=
              ("https://raw.githubusercontent.com/gradio-app/gradio/main/test/test_files"
               ++ "/" ++ "bus.png")%string;
            FileData_orig_name := "bus.png" |}.
Proof.
  apply (proj1 (proj2 (proj2 SimpleImage_round_trip))
           "https://raw.githubusercontent.com/gradio-app/gradio/main/test/test_files"
           "bus.png").
  - reflexivity.
  - discriminate.
  - discriminate.
Defined.

(** ** Template contexts *)

Lemma dict_get_set (k k' : string) (v : pyval) (d : context) :
  dict_get k (dict_set k' v d) = if k' =? k then Some v else dict_get k d.
Proof.
  induction d as [|[k0 v0] d IH]; simpl.
  - reflexivity.
  - destruct (k0 =? k') eqn:E0; simpl.
    + apply String.eqb_eq in E0. subst k0. destruct (k' =? k); reflexivity.
    + rewrite IH. destruct (k0 =? k) eqn:E1; [|reflexivity].
      apply String.eqb_eq in E1. subst k0. rewrite String.eqb_sym, E0. reflexivity.
Qed.

Lemma dict_get_absent (k : string) (d : context) :
  ~ In k (map fst d) -> dict_get k d = None.
Proof.
  induction d as [|[k0 v0] d IH]; simpl; intro H; [reflexivity|].
  destruct (k0 =? k) eqn:E.
  - apply String.eqb_eq in E. exfalso. apply H. left. exact E.
  - apply IH. intro Hin. apply H. right. exact Hin.
Qed.

(** Looking a key up in [{...d, **base}]: the entry of [base] when it has
    one, else the entry of [d]. *)
Lemma dict_get_unpack (k : string) (base d : context) :
  NoDup (map fst base) ->
  dict_get k (dict_unpack d base)
  = match dict_get k base with
    | Some v => Some v
    | None => dict_get k d
    end.
Proof.
  unfold dict_unpack. revert d. induction base as [|[k1 v1] base IH]; intros d Hnd.
  - reflexivity.
  - inversion Hnd as [|? ? Hnotin Hnd']; subst.
    cbn [fold_left fst snd dict_get]. rewrite (IH _ Hnd'), dict_get_set.
    destruct (k1 =? k) eqn:E.
    + apply String.eqb_eq in E. subst k1.
      rewrite (@dict_get_absent k base Hnotin). reflexivity.
    + reflexivity.
Qed.

(** Every field of the base class's context is in the component's context
    with the same value; HighlightedText adds [color_map] and Dataframe
    adds [headers], unless the base context already has a field of that
    name, which then wins; Textbox and Audio add nothing. *)
Theorem get_template_context_extends_base
    (base : context) (color_map : pyval) (self : Dataframe) (k : string) :
  NoDup (map fst base) ->
  dict_get k (Textbox_get_template_context base) = dict_get k base
  /\ dict_get k (Audio_get_template_context base) = dict_get k base
  /\ dict_get k (HighlightedText_get_template_context base color_map)
     = match dict_get k base with
       | Some v => Some v
       | None => if k =? "color_map" then Some color_map else None
       end
  /\ dict_get k (Dataframe_get_template_context base self)
     = match dict_get k base with
       | Some v => Some v
       | None => if k =? "headers" then Some (Dataframe_headers self) else None
       end.
Proof.
  intro Hnd.
  unfold Textbox_get_template_context, Audio_get_template_context,
    HighlightedText_get_template_context, Dataframe_get_template_context.
  rewrite !(@dict_get_unpack k base _ Hnd). cbn [dict_get].
  rewrite (String.eqb_sym "color_map" k), (String.eqb_sym "headers" k).
  repeat split; destruct (dict_get k base); reflexivity.
Qed.

(** A base context that holds the label only. *)
Lemma get_template_context_extends_base_witness :
  dict_get "label" (HighlightedText_get_template_context
                      [("label", PStr "Output")] (PDict []))
  = Some (PStr "Output")
  /\ dict_get "color_map" (HighlightedText_get_template_context
                             [("label", PStr "Output")] (PDict []))
     = Some (PDict []).
Proof.
  assert (Hnd : NoDup (map fst [("label", PStr "Output")])).
  { repeat constructor. intros []. }
  split.
  - exact (proj1 (proj2 (proj2 (@get_template_context_extends_base
             [("label", PStr "Output")] (PDict [])
             {| Dataframe_headers := PNone; Dataframe_type := "auto" |} "label" Hnd)))).
  - exact (proj1 (proj2 (proj2 (@get_template_context_extends_base
             [("label", PStr "Output")] (PDict [])
             {| Dataframe_headers := PNone; Dataframe_type := "auto" |} "color_map"
             Hnd)))).
Defined.

(** ** Shortcuts *)




(** ** Textbox.postprocess *)



(** The component's own example value. *)
Example SimpleImage_example_orig_name :
  option_map FileData_orig_name (SimpleImage_postprocess (Some SimpleImage_example_value))
  = Some "bus.png".
Proof. vm_compute. reflexivity. Qed.
